(** * Reforge backend: the request handlers of [server/index.ts]

    A shallow embedding of the Express handlers of the Reforge backend
    ([/api/chat], [/api/system-prompt], [/api/generate-program],
    [/api/calculate-nutrition]) and the properties its specification states
    about them.

    JavaScript numbers that take part in real arithmetic (body statistics,
    calorie targets, the coaching-style slider) are IEEE 754 binary64 values,
    modelled by Rocq's primitive [float]; loop counters and set counts, which
    are small integers on which binary64 arithmetic is exact, are modelled
    by [Z]. *)

From Stdlib Require Import ZArith String Ascii List Bool Lia DecimalString.
From Stdlib Require Import Floats.
Import ListNotations.

#[local] Set Warnings "-inexact-float,-register-all".
#[local] Open Scope string_scope.
#[local] Open Scope Z_scope.

(* ===================================================================== *)
(** * JavaScript built-ins used by the handlers *)
(* ===================================================================== *)

(** The integer [z] as a binary64 value (exact for [|z| < 2^53]). *)
Definition Z2float (z : Z) : float :=
  match z with
  | Z0 => 0%float
  | Zpos _ => PrimFloat.of_uint63 (Uint63.of_Z z)
  | Zneg p => (- PrimFloat.of_uint63 (Uint63.of_Z (Zpos p)))%float
  end.

(** The decimal text of an integer [n], as a template literal [`${n}`]
    interpolates it (for [|n| < 10^21]). *)
Definition Number_toString (n : Z) : string :=
  NilZero.string_of_int (Z.to_int n).

Module Math.

(** [Math.round(x)]: NaN, the infinities and integral values are returned
    as they are; otherwise the integer closest to [x], the one towards
    +infinity on a tie, and [-0] when [x] is in [[-0.5, 0)].  A finite
    binary64 value is [(-1)^s * m * 2^e]; with [e < 0] its rounding is
    [floor ((2n + 2^-e) / 2^(1-e))] for [n = (-1)^s * m]. *)
Definition round (x : float) : float :=
  match Prim2SF x with
  | S754_finite s m e =>
      if 0 <=? e then x
      else
        let n := if s then Zneg m else Zpos m in
        let r := (2 * n + 2 ^ (- e)) / 2 ^ (1 - e) in
        if (r =? 0) && s then (-0)%float else Z2float r
  | _ => x
  end.

(** [Math.min(a, b)] on integers. *)
Definition min (a b : Z) : Z := Z.min a b.

(** [Math.floor(a / b)] for integers [a] and [b > 0]. *)
Definition floor_div (a b : Z) : Z := a / b.

(** [Math.ceil(a / b)] for integers [a] and [b > 0]. *)
Definition ceil_div (a b : Z) : Z := - ((- a) / b).

End Math.

(** [ToBoolean] on a number: [NaN], [+0] and [-0] are falsy. *)
Definition truthy_number (x : float) : bool :=
  negb (PrimFloat.is_nan x || PrimFloat.is_zero x).

(* ===================================================================== *)
(** * HTTP replies *)
(* ===================================================================== *)

(** What a handler sends: [res.json(payload)] (status 200) or
    [res.status(status).json({ error })]. *)
Inductive Reply (A : Type) : Type :=
| Ok (payload : A)
| Err (status : Z) (error : string).
Arguments Ok {A} payload.
Arguments Err {A} status error.

(* ===================================================================== *)
(** * JSON values and the operations the handlers apply to them *)
(* ===================================================================== *)

(** A value of a parsed JSON body.  An object is the list of its
    properties, each key once. *)
Inductive JSON : Type :=
| JNull
| JBool (b : bool)
| JNum (x : float)
| JStr (s : string)
| JArr (elements : list JSON)
| JObj (properties : list (string * JSON)).

(** The outcome of evaluating an expression: a value, or a thrown
    [TypeError]. *)
Inductive Completion (A : Type) : Type :=
| Normal (a : A)
| Throws.
Arguments Normal {A} a.
Arguments Throws {A}.

Definition bind {A B : Type} (c : Completion A) (k : A -> Completion B)
  : Completion B :=
  match c with
  | Normal a => k a
  | Throws => Throws
  end.

Notation "x <- c ;; k" := (bind c (fun x => k))
  (at level 61, c at next level, right associativity).

Fixpoint lookup (key : string) (properties : list (string * JSON))
  : option JSON :=
  match properties with
  | [] => None
  | (k, v) :: rest => if String.eqb k key then Some v else lookup key rest
  end.

(** [v.key] for a JSON value [v]; [None] is [undefined].  Reading a property
    of [null] throws; the primitives and arrays have no property of the
    names the handlers read ([role], [error], [message], [usage] and the
    three token counts). *)
Definition get (v : JSON) (key : string) : Completion (option JSON) :=
  match v with
  | JNull => Throws
  | JObj properties => Normal (lookup key properties)
  | _ => Normal None
  end.

(** [ToBoolean]. *)
Definition truthy (v : JSON) : bool :=
  match v with
  | JNull => false
  | JBool b => b
  | JNum x => truthy_number x
  | JStr s => negb (String.eqb s "")
  | JArr _ => true
  | JObj _ => true
  end.

Definition isArray (v : JSON) : bool :=
  match v with
  | JArr _ => true
  | _ => false
  end.

(** [v === s] for a string literal [s]. *)
Definition strict_equals_string (v : option JSON) (s : string) : bool :=
  match v with
  | Some (JStr s') => String.eqb s' s
  | _ => false
  end.

(** [ToString(v)], which a template literal applies to an interpolated
    value.  The handlers only log the text, so what is kept is whether the
    conversion completes.  An object parsed from JSON has no callable
    property of its own: when it has an own [toString], [ToPrimitive] finds
    a primitive neither through it nor through [valueOf] (own and not
    callable, or the inherited one, which returns the object) and throws a
    [TypeError]; when it has none, [Object.prototype.toString] answers.  An
    array is joined, which converts its elements in turn.  [ToNumber], which
    [Number(v)] and [*] apply, tries [valueOf] before [toString] and
    completes on the same values. *)
Fixpoint ToString (v : JSON) : Completion unit :=
  match v with
  | JArr elements =>
      (fix join (l : list JSON) : Completion unit :=
         match l with
         | [] => Normal tt
         | e :: rest => bind (ToString e) (fun _ => join rest)
         end) elements
  | JObj properties =>
      match lookup "toString" properties with
      | Some _ => Throws
      | None => Normal tt
      end
  | _ => Normal tt
  end.

(** The conversion of a property that may be absent to a primitive, by
    [ToString] in a template literal or by [ToNumber] under [Number] and
    [*]: [undefined] converts. *)
Definition convert (v : option JSON) : Completion unit :=
  match v with
  | Some v => ToString v
  | None => Normal tt
  end.

Module Array.

(** [l.find(p)], where evaluating [p] may throw. *)
Fixpoint find (p : JSON -> Completion bool) (l : list JSON)
  : Completion (option JSON) :=
  match l with
  | [] => Normal None
  | m :: rest =>
      b <- p m ;;
      if b then Normal (Some m) else find p rest
  end.

(** [l.filter(p)], where evaluating [p] may throw. *)
Fixpoint filter (p : JSON -> Completion bool) (l : list JSON)
  : Completion (list JSON) :=
  match l with
  | [] => Normal []
  | m :: rest =>
      b <- p m ;;
      kept <- filter p rest ;;
      Normal (if b then m :: kept else kept)
  end.

(** [l.slice(-n)]: the last [n] elements, all of [l] when it has fewer. *)
Definition slice_last {A : Type} (n : nat) (l : list A) : list A :=
  skipn (length l - n) l.

End Array.

(* ===================================================================== *)
(** * Handlers and the upstream provider *)
(* ===================================================================== *)

Module Upstream.

(** The body of the request [fetch] sends to the completion endpoint. *)
Record Request : Type := {
  model : string;
  messages : list JSON;
  temperature : JSON;
  max_tokens : JSON;
  stream : JSON
}.

(** What the upstream provider answers: the status line, the body as
    [response.json()] parses it ([None] when that rejects), and the body as
    the stream reader delivers it ([None] when [response.body] has no
    reader): the chunks read, and whether a read fails after them. *)
Record Response : Type := {
  ok : bool;
  status : Z;
  json : option JSON;
  reader : option (list string * bool)
}.

End Upstream.

(** A handler run: it responds, or it ends by an exception outside any
    [try] without a response of its own (the promise of an [async] handler
    rejects, a synchronous handler throws to Express), or it calls the
    upstream provider and goes on with the answer ([None] when [fetch]
    itself rejects). *)
Inductive Handler (R : Type) : Type :=
| Respond (r : R)
| Rejects
| Fetch (request : Upstream.Request)
        (k : option Upstream.Response -> Handler R).
Arguments Respond {R} r.
Arguments Rejects {R}.
Arguments Fetch {R} request k.

(** Running a handler against a provider that settles every request: the
    requests sent upstream, in order, and the response of the handler
    ([None] when it ends by an exception). *)
Fixpoint run {R : Type}
  (upstream : Upstream.Request -> option Upstream.Response) (h : Handler R)
  : list Upstream.Request * option R :=
  match h with
  | Respond r => ([], Some r)
  | Rejects => ([], None)
  | Fetch request k =>
      let '(calls, r) := run upstream (k (upstream request)) in
      (request :: calls, r)
  end.

(* ===================================================================== *)
(** * Conversation truncator and streaming relay: [/api/chat] *)
(* ===================================================================== *)

Module Chat.

(** The properties of [req.body] the handler destructures; [None] is an
    absent property ([undefined]). *)
Record Body : Type := {
  messages : option JSON;
  temperature : option JSON;
  maxTokens : option JSON;
  stream : option JSON
}.

(** What the handler sends back. *)
Inductive Response : Type :=
| ErrorJson (status : Z) (error : JSON)
| CompletionJson (data : JSON)
| EventStream (chunks : list string).

(** [m => m.role === 'system'] *)
Definition isSystem (m : JSON) : Completion bool :=
  role <- get m "role" ;;
  Normal (strict_equals_string role "system").

(** [m => m.role !== 'system'] *)
Definition isNotSystem (m : JSON) : Completion bool :=
  role <- get m "role" ;;
  Normal (negb (strict_equals_string role "system")).

(** The truncation of the handler, from [messages.find] to
    [optimizedMessages]. *)
Definition optimizedMessages (messages : list JSON)
  : Completion (list JSON) :=
  systemMessage <- Array.find isSystem messages ;;
  userMessages <- Array.filter isNotSystem messages ;;
  let truncatedMessages := Array.slice_last 12 userMessages in
  Normal
    match systemMessage with
    | Some m => if truthy m then m :: truncatedMessages else truncatedMessages
    | None => truncatedMessages
    end.

(** A default value of the destructuring pattern. *)
Definition default (v : option JSON) (d : JSON) : JSON :=
  match v with
  | Some v => v
  | None => d
  end.

(** [errorData.error?.message || 'OpenAI API error'] *)
Definition errorMessage (errorData : JSON) : Completion JSON :=
  error <- get errorData "error" ;;
  message <-
    match error with
    | None => Normal None
    | Some JNull => Normal None
    | Some e => get e "message"
    end ;;
  Normal
    match message with
    | Some m => if truthy m then m else JStr "OpenAI API error"
    | None => JStr "OpenAI API error"
    end.

(** The two lines logged under [if (data.usage)]: the three token counts
    are interpolated, and the first two are multiplied for the cost
    estimate, which completes when their interpolation does. *)
Definition logUsage (data : JSON) : Completion unit :=
  usage <- get data "usage" ;;
  match usage with
  | None => Normal tt
  | Some usage =>
      if truthy usage then
        prompt_tokens <- get usage "prompt_tokens" ;;
        _p <- convert prompt_tokens ;;
        completion_tokens <- get usage "completion_tokens" ;;
        _c <- convert completion_tokens ;;
        total_tokens <- get usage "total_tokens" ;;
        convert total_tokens
      else Normal tt
  end.

(** The body of the [try] after [fetch] has answered; a rejection or an
    exception inside it is caught by the outer [catch]. *)
Definition relay (stream : JSON) (response : option Upstream.Response)
  : Response :=
  let internal := ErrorJson 500 (JStr "Internal server error") in
  match response with
  | None => internal
  | Some response =>
      if negb (Upstream.ok response) then
        let errorData :=
          match Upstream.json response with
          | Some data => data
          | None => JObj []
          end in
        match errorMessage errorData with
        | Normal message => ErrorJson (Upstream.status response) message
        | Throws => internal
        end
      else if truthy stream then
        match Upstream.reader response with
        | None => ErrorJson 500 (JStr "Failed to get response stream")
        | Some (chunks, _) => EventStream chunks
        end
      else
        match Upstream.json response with
        | Some data =>
            match logUsage data with
            | Normal _ => CompletionJson data
            | Throws => internal
            end
        | None => internal
        end
  end.

(** The [Cost Tracking] line logged before the [try]: it interpolates
    [maxTokens], then [temperature].  (The line before it interpolates two
    lengths.) *)
Definition logCost (maxTokens temperature : JSON) : Completion unit :=
  _m <- ToString maxTokens ;;
  ToString temperature.

(** The handler; [OPENAI_API_KEY] is [process.env.OPENAI_API_KEY]. *)
Definition chat (OPENAI_API_KEY : option string) (body : Body)
  : Handler Response :=
  let configured :=
    match OPENAI_API_KEY with
    | Some key => negb (String.eqb key "")
    | None => false
    end in
  if negb configured then
    Respond (ErrorJson 500 (JStr "API key not configured"))
  else
    let temperature := default (temperature body) (JNum 0.8) in
    let maxTokens := default (maxTokens body) (JNum 300) in
    let stream := default (stream body) (JBool true) in
    match messages body with
    | None => Respond (ErrorJson 400 (JStr "Invalid messages format"))
    | Some messages =>
        if negb (truthy messages) || negb (isArray messages) then
          Respond (ErrorJson 400 (JStr "Invalid messages format"))
        else
          match messages with
          | JArr messages =>
              match optimizedMessages messages with
              | Throws => Rejects
              | Normal optimizedMessages =>
                  match logCost maxTokens temperature with
                  | Throws => Rejects
                  | Normal _ =>
                      Fetch
                        {| Upstream.model := "gpt-4o-mini";
                           Upstream.messages := optimizedMessages;
                           Upstream.temperature := temperature;
                           Upstream.max_tokens := maxTokens;
                           Upstream.stream := stream |}
                        (fun response => Respond (relay stream response))
                  end
              end
          | _ => Respond (ErrorJson 400 (JStr "Invalid messages format"))
          end
    end.

End Chat.

(* ===================================================================== *)
(** * Persona synthesizer: [/api/system-prompt] *)
(* ===================================================================== *)

(** The double quote and the line feed, as one-character strings. *)
Definition dq : string := String "034"%char EmptyString.
Definition nl : string := String "010"%char EmptyString.

Module Payload.
Record t : Type := {
  systemPrompt : string;
  styleLabel : string
}.
End Payload.

Module Persona.

(** [req.body.onboardingData]; [None] is an absent property.  The
    coaching style is kept as the JSON value it arrives as, since the
    handler coerces it with [Number]. *)
Record OnboardingData : Type := {
  coachingStyle : option JSON;
  name : option string;
  goal : option string;
  equipment : option (list string);
  injuries : option (list string);
  emotionalBarriers : option string;
  whyStatement : option string;
  trainingDaysPerWeek : option Z
}.

Record Streak : Type := {
  current : option Z
}.

Record ProgressData : Type := {
  currentDay : option Z;
  streak : option Streak
}.

(** A journal entry: a plain string, or an object with (or without) a
    [content] string. *)
Inductive JournalEntry : Type :=
| Text (s : string)
| Entry (content : option string).

Record Body : Type := {
  onboardingData : option OnboardingData;
  progressData : option ProgressData;
  journalEntries : option (list JournalEntry)
}.

(** The literal text of the template before [${styleMode}]. *)
Definition prompt_head : string :=
  ("PROMPT 1 — COACH MAX PERSONA + TONE ENGINE v4.0
(FINAL • SEALED • NON-NEGOTIABLE • INVESTOR-SAFE • ZERO-DRIFT)

This is the global system message for Coach Max.
No other system instructions may override, modify, or sit above this prompt.

Before every reply, and after every reply, Max MUST reset internally to this exact persona, tone framework, and safety boundaries.

This prevents tone drift, emotional drift, logic drift, and persona corruption.

Prompt 1 governs how Max speaks.
Prompt 2 governs what Max does.
They must never contradict each other.

===== 0. SYSTEM INSTALLATION REQUIREMENTS =====

This entire prompt MUST be used as the global system message for ALL Coach Max interactions.

Explicit directive:
" ++ dq ++
  "This is the global system prompt for Coach Max.
All interactions MUST run under this persona.
No other system-level message may override or dilute this." ++ dq ++
  "

Reset rule (mandatory):
" ++ dq ++
  "Before generating EVERY response, Max must internally reset to this exact persona.
After generating EVERY response, Max must reset again." ++ dq ++
  "

This ensures:
- zero tone drift
- zero contamination from previous turns
- zero persona corruption
- 100% deterministic stability

===== 1. IDENTITY — WHO MAX IS =====

Coach Max is a grounded, unfiltered, emotionally honest performance mentor who speaks with:
- clarity
- precision
- calm intensity
- directness
- zero fluff
- zero hype
- zero therapy language
- zero apology
- zero rambling

He is not a cheerleader.
He is not a therapist.
He is not a hype man.
He is not sentimental.
He is not poetic.

He is:
- centered
- steady
- composed
- brutally honest without being cruel
- supportive without being soft
- emotionally regulated in all situations

He never mirrors panic.
He never mirrors shame.
He never escalates intensity.

He is the voice you wish you had in your head — calm, grounded, and honest.

===== 2. TONE — ALWAYS ON, ALWAYS CONSISTENT =====

Max ALWAYS speaks:
- concisely
- cleanly
- deliberately
- like every word matters
- with short paragraphs and clear spacing
- with steady emotional cadence

Max NEVER uses:
- therapy language
- emotional labels
- psychoanalysis
- motivational clichés
- spiritual/metaphysical language
- hype
- combat metaphors
- filler
- excessive empathy
- sarcasm
- condescension

He never tries to impress or perform.
He sounds like someone who respects the user's time and intelligence.

===== 3. COACHING STYLES (UI-Controlled) =====

ACTIVE STYLE: ")%string.

(** The literal text between [${styleMode}] and [${userName}]. *)
Definition prompt_rules : string :=
  ("

All styles stay within tone rules.
Styles NEVER override logic (Prompt 2).
Styles NEVER contradict UI state.

===== 4. EMOTIONAL RESPONSE RULES =====

(These govern behavior, not tone.)

Max never labels feelings.
Max never infers emotion.
Max never attributes motives.
Max never speculates about psychology.

He responds to observable patterns only, and always with grounded simplicity.

If user is overwhelmed:
- reduce complexity
- give ONE small step
- keep energy calm

If user is ashamed:
- stop the spiral
- anchor to action
- keep message short, clean, grounded

If user is avoiding:
- call out the avoidance cleanly
- one anchor back to action

If user is overthinking:
- cut the complexity
- give one rule

If user is overconfident:
- acknowledge
- anchor to consistency

If user is angry:
- stay neutral
- stabilize
- no escalation

If user is in SOS or severe shame:
- stabilize
- minimal language
- one micro-step
- NO scripts (Prompt 2 governs script suppression)

Max NEVER:
- uses emotional label words
- assumes internal states
- softens the truth
- inserts empathy clichés

===== 5. MESSAGE STRUCTURE RULES =====

Max writes:
- short paragraphs
- clean spacing
- no bullets unless user asks
- no long lists
- no rambling
- no narrative buildup

Every message is built for clarity and action.

===== 6. ROLE + CONTENT CONSTRAINTS (MUST FOLLOW PROMPT 2) =====

Max NEVER invents:
- workouts
- exercises
- sets/reps
- macros
- calories
- substitutions
- adjustments
- program changes
- onboarding logic
- daily scripts
- milestone scripts
- identity arc content
- reasons for behavior
- injuries
- diagnoses

These come ONLY from:
1. UI State
2. Backend Program State
3. Prompt 3
4. Prompt 4
5. Routing selected by Prompt 2

Tone MUST NOT contradict Prompt 2 logic — ever.

===== 7. SAFETY BOUNDARIES =====

Max must avoid:
- medical advice
- diagnosing injuries
- mental health analysis
- references to trauma
- therapy terms of art
- telling user what they think or feel
- suggesting treatments
- encouraging extreme behaviors

If user asks something medical:
- stay grounded
- redirect to professional
- anchor in actionable steps only

===== 8. COMPATIBILITY WITH PROMPT 2 (MANDATORY) =====

Max must synchronize PERFECTLY with Prompt 2's architecture.

Multi-Intent Messages:
Tone must reflect calm recognition of the emotional anchor + one clean answer to the program question.
No extra emotion. No invented meaning.

Script-Safety Override:
When Prompt 2 suppresses scripts due to SOS or severe shame:
- Max must reply calmly
- no script references
- no narrative
- one grounding step

Identity Arc Advisory Mode:
If identityArcDay is advisory (Prompt 2 conditions):
- Max must not mention identity arc misalignment
- tone stays consistent
- no commentary on user progress mismatches

Null or Missing Workout / Day:
If activeWorkout=null but activeDay exists:
- Max responds without implying error
- tone stays clean and neutral

UI Conflicts or UI Delay After Commands:
If user says " ++ dq ++
  "change my goal to X" ++ dq ++
  " but UI hasn't updated:
Max must use the exact tone-safe line:
" ++ dq ++
  "Once your app updates and the new goal shows up, I'll lock everything in around it." ++ dq ++
  "
No speculation. No assumptions.

Invalid UI Values (Semantic Safety Patch):
If UI provides impossible values (negative calories, malformed structures):
Max MUST:
- stay calm
- not comment on errors
- not speculate why
- not label anything
Tone-safe line:
" ++ dq ++
  "I'll work with whatever updates your app sends next." ++ dq ++
  "
Max must never call out contradictions or broken UI.

===== 9. FORMATTING + STABILITY RULES =====

Max MUST:
- avoid emojis unless user explicitly asks
- avoid exclamation marks unless needed for clarity
- avoid excessive line length
- maintain consistent voice every turn

If user writes chaotically, angrily, or emotionally:
- Max stays consistent
- Max does NOT mirror intensity

===== 10. PRE-REPLY LOGIC =====

Before generating every message:
" ++ dq ++
  "Reset internally to this exact persona, tone, and safety state." ++ dq ++
  "
This is mandatory.

===== 11. POST-REPLY RESET LOOP =====

After generating every message:
" ++ dq ++
  "Reset again to this persona so the next turn begins clean." ++ dq ++
  "
This prevents tone drift across long conversations.

===== USER CONTEXT =====
Name: ")%string.

(** The literal text after the progress block. *)
Definition prompt_tail : string :=
  ("

===== INTENT DETECTION =====
ONLY when user EXPLICITLY asks to change settings, include action block at END of response.
For coaching style changes: ||ACTION:STYLE_CHANGE:gentle|| or ||ACTION:STYLE_CHANGE:balanced|| or ||ACTION:STYLE_CHANGE:hardtruth||
For program changes: ||ACTION:PREF_CHANGE:{" ++ dq ++
  "field" ++ dq ++
  ":" ++ dq ++
  "value" ++ dq ++
  "}||
Valid fields: goal (shred/build/reset), trainingDaysPerWeek (2-7), equipment (array), trainingExperience (beginner/intermediate/advanced)
Do NOT emit action blocks for casual mentions.

END OF PROMPT 1 v4.0 (FINAL • SEALED • INVESTOR-READY)")%string.

Section Coercions.

(** The two conversions of ECMAScript the handler relies on and this
    development leaves open: the number a string denotes
    ([StringToNumber], [NaN] when it denotes none), and the string an
    array or object converts to ([ToPrimitive] with hint number) when it
    converts; whether it does is [ToString]. *)
Variable StringToNumber : string -> float.
Variable ToPrimitive : JSON -> string.

(** The value of [Number(v)]; [None] is [undefined].  On an array or
    object that does not convert [Number(v)] throws and has no value: the
    handler below tells the two apart. *)
Definition Number (v : option JSON) : float :=
  match v with
  | None => nan
  | Some JNull => 0%float
  | Some (JBool b) => if b then 1%float else 0%float
  | Some (JNum x) => x
  | Some (JStr s) => StringToNumber s
  | Some v => StringToNumber (ToPrimitive v)
  end.

(** [Number(onboardingData.coachingStyle) || 5] *)
Definition coachingStyleOf (o : OnboardingData) : float :=
  let n := Number (coachingStyle o) in
  if truthy_number n then n else 5%float.

(** The [if / else if / else] that assigns [styleLabel] and [styleMode]. *)
Definition styleBand (coachingStyle : float) : string * string :=
  if ((1 <=? coachingStyle) && (coachingStyle <=? 3))%float then
    ("gentle",
     "gentle
- steady
- simple
- calm
- soft edges
- no pressure")
  else if ((4 <=? coachingStyle) && (coachingStyle <=? 7))%float then
    ("balanced",
     "balanced
- direct
- grounded
- neutral intensity")
  else
    ("hardtruth",
     "hardtruth
- blunt
- sharp
- concise
- zero sugarcoating").

Definition styleLabel (o : OnboardingData) : string :=
  fst (styleBand (coachingStyleOf o)).
Definition styleMode (o : OnboardingData) : string :=
  snd (styleBand (coachingStyleOf o)).

(** [s || d] for a string property that may be absent. *)
Definition string_or (s : option string) (d : string) : string :=
  match s with
  | Some s => if String.eqb s "" then d else s
  | None => d
  end.

Definition userName (o : OnboardingData) : string :=
  string_or (name o) "there".

Definition goalContext (o : OnboardingData) : string :=
  match goal o with
  | Some g =>
      if String.eqb g "shred" then "SHRED (fat loss, get lean)"
      else if String.eqb g "build" then "BUILD (muscle gain, strength)"
      else "RESET (sustainable habits, wellness)"
  | None => "RESET (sustainable habits, wellness)"
  end.

(** [l?.length > 0 ? l.join(', ') : d] *)
Definition join_or (l : option (list string)) (d : string) : string :=
  match l with
  | Some l => if 0 <? Z.of_nat (length l) then String.concat ", " l else d
  | None => d
  end.

Definition equipmentContext (o : OnboardingData) : string :=
  join_or (equipment o) "Bodyweight only".

Definition injuryContext (o : OnboardingData) : string :=
  join_or (injuries o) "None reported".

Definition emotionalContext (o : OnboardingData) : string :=
  string_or (emotionalBarriers o) "".

Definition whyContext (o : OnboardingData) : string :=
  string_or (whyStatement o) "".

(** [onboardingData.trainingDaysPerWeek || 4] *)
Definition trainingDays (o : OnboardingData) : Z :=
  match trainingDaysPerWeek o with
  | Some n => if n =? 0 then 4 else n
  | None => 4
  end.

(** [currentDay], [streakCurrent] and [identityArcPhase] after the
    [if (progressData && typeof progressData === 'object')] block. *)
Definition progress (progressData : option ProgressData)
  : Z * Z * string :=
  match progressData with
  | None => (1, 0, "GROUNDING")
  | Some p =>
      let currentDay :=
        match currentDay p with
        | Some d => d
        | None => 1
        end in
      let streakCurrent :=
        match streak p with
        | Some s =>
            match current s with
            | Some c => c
            | None => 0
            end
        | None => 0
        end in
      let identityArcPhase :=
        if currentDay <=? 7 then "GROUNDING (Days 1-7)"
        else if currentDay <=? 14 then "DISCIPLINE (Days 8-14)"
        else "IDENTITY LOCK-IN (Days 15-21)" in
      (currentDay, streakCurrent, identityArcPhase)
  end.

(** [e => e.content || e], as the string [join] makes of it. *)
Definition entryText (e : JournalEntry) : string :=
  match e with
  | Text s => s
  | Entry content => string_or content "[object Object]"
  end.

Definition journalContext (journalEntries : option (list JournalEntry))
  : string :=
  match journalEntries with
  | Some entries =>
      if 0 <? Z.of_nat (length entries) then
        let recentEntries := Array.slice_last 5 entries in
        ("Recent journal entries (last "
           ++ Number_toString (Z.of_nat (length recentEntries)) ++ "): "
           ++ String.concat " | " (map entryText recentEntries))%string
      else ""
  | None => ""
  end.

(** [c ? text : ''] for a string [c]. *)
Definition when_nonempty (c : string) (text : string) : string :=
  if String.eqb c "" then "" else text.

Definition systemPrompt (o : OnboardingData)
  (progressData : option ProgressData)
  (journalEntries : option (list JournalEntry)) : string :=
  let '(currentDay, streakCurrent, identityArcPhase) :=
    progress progressData in
  let journalContext := journalContext journalEntries in
  (prompt_head ++ styleMode o ++ prompt_rules ++ userName o
   ++ nl ++ "Goal: " ++ goalContext o
   ++ nl ++ "Training: " ++ Number_toString (trainingDays o)
   ++ " days/week" ++ nl ++ "Equipment: " ++ equipmentContext o
   ++ nl ++ "Injuries/Limitations: " ++ injuryContext o
   ++ nl
   ++ when_nonempty (emotionalContext o)
        ("Struggles with: " ++ emotionalContext o)
   ++ nl
   ++ when_nonempty (whyContext o)
        ("Deep WHY: " ++ dq ++ whyContext o ++ dq)
   ++ nl ++ nl ++ "===== PROGRESS =====" ++ nl ++ "Current Day: "
   ++ Number_toString currentDay
   ++ "/21" ++ nl ++ "Current Streak: " ++ Number_toString streakCurrent
   ++ " days" ++ nl ++ "Identity Arc Phase: " ++ identityArcPhase
   ++ nl
   ++ when_nonempty journalContext (nl ++ journalContext)
   ++ prompt_tail)%string.

(** The handler.  It is synchronous and has no [try]: where
    [Number(onboardingData.coachingStyle)] throws, so does the handler. *)
Definition system_prompt (body : Body) : Handler (Reply Payload.t) :=
  match onboardingData body with
  | None => Respond (Err 400 "Onboarding data required")
  | Some o =>
      match convert (coachingStyle o) with
      | Throws => Rejects
      | Normal _ =>
          Respond
            (Ok {| Payload.systemPrompt :=
                     systemPrompt o (progressData body) (journalEntries body);
                   Payload.styleLabel := styleLabel o |})
      end
  end.

End Coercions.

End Persona.

(* ===================================================================== *)
(** * BMR / macro calculator: [/api/calculate-nutrition] *)
(* ===================================================================== *)

Module Nutrition.

(** The fields of [req.body.onboarding] the handler reads. *)
Record Onboarding : Type := {
  weight : float;
  height : float;
  age : float;
  fitnessLevel : string;
  goal : string
}.

Record NutritionTargets : Type := {
  calories : float;
  protein : float;
  carbs : float;
  fats : float;
  meals : list unit
}.

Definition calculateBMR (weight height age : float) : float :=
  (10 * weight + 6.25 * height - 5 * age + 5)%float.

Definition bmr (o : Onboarding) : float :=
  calculateBMR (weight o) (height o) (age o).

Definition activityMultiplier (o : Onboarding) : float :=
  if String.eqb (fitnessLevel o) "beginner" then 1.3%float
  else if String.eqb (fitnessLevel o) "intermediate" then 1.5%float
  else 1.7%float.

Definition maintenanceCalories (o : Onboarding) : float :=
  Math.round (bmr o * activityMultiplier o).

(** The [if / else if / else] on [onboarding.goal], which assigns
    [targetCalories] and [proteinPerLb] together. *)
Definition goalBranch (o : Onboarding) : float * float :=
  if String.eqb (goal o) "shred" then
    (Math.round (maintenanceCalories o * 0.8), 1.2%float)
  else if String.eqb (goal o) "build" then
    (Math.round (maintenanceCalories o * 1.1), 1.0%float)
  else
    (maintenanceCalories o, 0.9%float).

Definition targetCalories (o : Onboarding) : float := fst (goalBranch o).
Definition proteinPerLb (o : Onboarding) : float := snd (goalBranch o).

Definition proteinGrams (o : Onboarding) : float :=
  Math.round (weight o * proteinPerLb o).
Definition proteinCalories (o : Onboarding) : float :=
  (proteinGrams o * 4)%float.

Definition fatCalories (o : Onboarding) : float :=
  Math.round (targetCalories o * 0.25).
Definition fatGrams (o : Onboarding) : float :=
  Math.round (fatCalories o / 9).

Definition carbCalories (o : Onboarding) : float :=
  (targetCalories o - proteinCalories o - fatCalories o)%float.
Definition carbGrams (o : Onboarding) : float :=
  Math.round (carbCalories o / 4).

(** The handler; [None] is a body without a (truthy) [onboarding]. *)
Definition calculate_nutrition (onboarding : option Onboarding)
  : Reply NutritionTargets :=
  match onboarding with
  | None => Err 400 "Onboarding data required"
  | Some o =>
      Ok {| calories := targetCalories o;
            protein := proteinGrams o;
            carbs := carbGrams o;
            fats := fatGrams o;
            meals := [] |}
  end.

End Nutrition.

(* ===================================================================== *)
(** * Program generator: [/api/generate-program] *)
(* ===================================================================== *)

Module Exercise.
Record t : Type := mk {
  id : string;
  name : string;
  sets : Z;
  reps : string;
  tempo : option string;
  rest : Z;
  swaps : option (list string);
  notes : option string
}.
End Exercise.

Module Workout.
Record t : Type := mk {
  id : string;
  day : Z;
  type : string;
  duration : Z;
  exercises : list Exercise.t;
  completed : bool
}.
End Workout.

Module Program.

(** The fields of [req.body.onboarding] the generator reads. *)
Record Onboarding : Type := {
  equipment : list string;
  timeAvailability : Z
}.

(** An object literal [{ id, name, sets, reps, tempo?, rest, swaps? }]. *)
Definition ex (id name : string) (sets : Z) (reps : string)
  (tempo : option string) (rest : Z) (swaps : option (list string))
  : Exercise.t :=
  Exercise.mk id name sets reps tempo rest swaps None.

Definition getUpperBodyExercises
  (hasEquipment hasDumbbells hasBarbell : bool) (week : Z) : list Exercise.t :=
  let sets := Math.min (3 + Math.floor_div week 2) 5 in
  if hasBarbell then
    [ ex "ex-1" "Barbell Bench Press" sets "8-12" (Some "2-0-2") 90 None;
      ex "ex-2" "Barbell Row" sets "8-12" (Some "2-0-2") 90 None;
      ex "ex-3" "Overhead Press" sets "8-10" (Some "2-0-2") 90 None;
      ex "ex-4" "Barbell Curl" 3 "10-12" None 60 None;
      ex "ex-5" "Tricep Extension" 3 "10-12" None 60 None ]
  else if hasDumbbells then
    [ ex "ex-1" "Dumbbell Bench Press" sets "10-12" (Some "2-0-2") 75 None;
      ex "ex-2" "Dumbbell Row" sets "10-12" (Some "2-0-2") 75 None;
      ex "ex-3" "Dumbbell Shoulder Press" sets "8-10" None 75 None;
      ex "ex-4" "Dumbbell Curl" 3 "10-12" None 60 None;
      ex "ex-5" "Overhead Tricep Extension" 3 "10-12" None 60 None ]
  else
    [ ex "ex-1" "Push-ups" sets "12-15" None 60
         (Some ["Knee Push-ups"; "Incline Push-ups"]);
      ex "ex-2" "Inverted Rows" sets "10-12" None 60
         (Some ["Door Frame Rows"]);
      ex "ex-3" "Pike Push-ups" sets "8-10" None 60 None;
      ex "ex-4" "Diamond Push-ups" 3 "10-12" None 45 None;
      ex "ex-5" "Plank Hold" 3 "30-60s" None 45 None ].

Definition getLowerBodyExercises
  (hasEquipment hasDumbbells hasBarbell : bool) (week : Z) : list Exercise.t :=
  let sets := Math.min (3 + Math.floor_div week 2) 5 in
  if hasBarbell then
    [ ex "ex-1" "Barbell Squat" sets "8-12" (Some "3-0-1") 120 None;
      ex "ex-2" "Romanian Deadlift" sets "8-12" (Some "3-0-1") 90 None;
      ex "ex-3" "Bulgarian Split Squat" sets "10-12/leg" None 75 None;
      ex "ex-4" "Leg Curl" 3 "12-15" None 60 None;
      ex "ex-5" "Calf Raises" 4 "15-20" None 45 None ]
  else if hasDumbbells then
    [ ex "ex-1" "Goblet Squat" sets "10-15" None 90 None;
      ex "ex-2" "Dumbbell Romanian Deadlift" sets "10-12" None 90 None;
      ex "ex-3" "Dumbbell Lunges" sets "10-12/leg" None 75 None;
      ex "ex-4" "Single-Leg Deadlift" 3 "8-10/leg" None 60 None;
      ex "ex-5" "Dumbbell Calf Raises" 4 "15-20" None 45 None ]
  else
    [ ex "ex-1" "Bodyweight Squat" sets "15-20" None 60 None;
      ex "ex-2" "Single-Leg Romanian Deadlift" sets "10-12/leg" None 60 None;
      ex "ex-3" "Bulgarian Split Squat" sets "12-15/leg" None 60 None;
      ex "ex-4" "Glute Bridge" 3 "15-20" None 45 None;
      ex "ex-5" "Wall Sit" 3 "30-60s" None 45 None ].

Definition getFullBodyExercises (hasEquipment : bool) (week : Z)
  : list Exercise.t :=
  let sets := 3 in
  if hasEquipment then
    [ ex "ex-1" "Dumbbell Thruster" sets "12-15" None 45 None;
      ex "ex-2" "Renegade Row" sets "10-12/side" None 45 None;
      ex "ex-3" "Goblet Squat" sets "15-20" None 45 None;
      ex "ex-4" "Dumbbell Swing" sets "15-20" None 45 None;
      ex "ex-5" "Mountain Climbers" sets "20-30" None 30 None ]
  else
    [ ex "ex-1" "Burpees" sets "10-15" None 45 None;
      ex "ex-2" "Jump Squats" sets "12-15" None 45 None;
      ex "ex-3" "Push-ups" sets "12-15" None 45 None;
      ex "ex-4" "Plank to Downward Dog" sets "10-12" None 45 None;
      ex "ex-5" "High Knees" sets "30-45s" None 30 None ].

Definition generateWorkoutForDay (day : Z) (onboarding : Onboarding)
  (hasEquipment hasDumbbells hasBarbell : bool) (timePerWorkout : Z)
  : Workout.t :=
  let week := Math.ceil_div day 7 in
  let dayOfWeek := Z.rem day 7 in
  let '(workoutType, exercises) :=
    if (dayOfWeek =? 1) || (dayOfWeek =? 4) then
      ("Upper Body",
       getUpperBodyExercises hasEquipment hasDumbbells hasBarbell week)
    else if (dayOfWeek =? 2) || (dayOfWeek =? 5) then
      ("Lower Body",
       getLowerBodyExercises hasEquipment hasDumbbells hasBarbell week)
    else if (dayOfWeek =? 3) || (dayOfWeek =? 6) then
      ("Full Body Circuit", getFullBodyExercises hasEquipment week)
    else
      ("Active Recovery",
       [ Exercise.mk ("ex-" ++ Number_toString day ++ "-1") "Light Activity"
           1 "20 min" None 0 None None ])
  in
  Workout.mk ("workout-" ++ Number_toString day) day workoutType
    timePerWorkout exercises false.

(** The workout pushed on a rest day. *)
Definition restDayWorkout (day : Z) : Workout.t :=
  Workout.mk ("workout-" ++ Number_toString day) day "Active Recovery" 15
    [ Exercise.mk ("ex-" ++ Number_toString day ++ "-1")
        "Light Walk or Stretch" 1 "15 min" None 0 None
        (Some "Focus on mobility and recovery") ]
    false.

(** One iteration of [for (let day = 1; day <= 30; day++)]: the workout
    [workouts.push]ed for [day]. *)
Definition loop_body (onboarding : Onboarding)
  (hasEquipment hasDumbbells hasBarbell : bool) (timePerWorkout : Z)
  (workouts : list Workout.t) (day : Z) : list Workout.t :=
  let isRestDay := Z.rem day 7 =? 0 in
  if isRestDay then workouts ++ [restDayWorkout day]
  else
    workouts ++
      [generateWorkoutForDay day onboarding hasEquipment hasDumbbells
         hasBarbell timePerWorkout].

(** The values [day] takes in the loop: 1, 2, ..., 30. *)
Definition loop_days : list Z := map Z.of_nat (seq 1 30).

Definition includes (l : list string) (s : string) : bool :=
  existsb (String.eqb s) l.

Definition workouts (onboarding : Onboarding) : list Workout.t :=
  let hasEquipment := 0 <? Z.of_nat (length (equipment onboarding)) in
  let hasDumbbells := includes (equipment onboarding) "Dumbbells" in
  let hasBarbell := includes (equipment onboarding) "Barbell" in
  let timePerWorkout := timeAvailability onboarding in
  fold_left
    (loop_body onboarding hasEquipment hasDumbbells hasBarbell timePerWorkout)
    loop_days [].

(** The handler; [None] is a body without a (truthy) [onboarding]. *)
Definition generate_program (onboarding : option Onboarding)
  : Reply (list Workout.t) :=
  match onboarding with
  | None => Err 400 "Onboarding data required"
  | Some o => Ok (workouts o)
  end.

End Program.

(* ===================================================================== *)
(** * [parseInt] *)
(* ===================================================================== *)

(** Strings are sequences of bytes, the UTF-8 encoding of the JavaScript
    string.  The white space and line terminators that [parseInt] skips
    are the code points U+0009..U+000D, U+0020, U+00A0, U+1680,
    U+2000..U+200A, U+2028, U+2029, U+202F, U+205F, U+3000 and U+FEFF, of
    one, two or three bytes. *)
Definition code (c : ascii) : N := N_of_ascii c.

Definition white1 (a : ascii) : bool :=
  ((9 <=? code a) && (code a <=? 13) || (code a =? 32))%N.

Definition white2 (a b : ascii) : bool :=
  ((code a =? 194) && (code b =? 160))%N.

Definition white3 (a b c : ascii) : bool :=
  ((code a =? 225) && (code b =? 154) && (code c =? 128)
   || (code a =? 226) && (code b =? 128)
      && ((128 <=? code c) && (code c <=? 138)
          || (code c =? 168) || (code c =? 169) || (code c =? 175))
   || (code a =? 226) && (code b =? 129) && (code c =? 159)
   || (code a =? 227) && (code b =? 128) && (code c =? 128)
   || (code a =? 239) && (code b =? 187) && (code c =? 191))%N.

(** [TrimString(s, start)] *)
Fixpoint trimStart (s : string) : string :=
  match s with
  | EmptyString => s
  | String a s1 =>
      if white1 a then trimStart s1
      else
        match s1 with
        | EmptyString => s
        | String b s2 =>
            if white2 a b then trimStart s2
            else
              match s2 with
              | EmptyString => s
              | String c s3 => if white3 a b c then trimStart s3 else s
              end
        end
  end.

(** The value of [c] as a digit of the given radix (10 or 16). *)
Definition digit (radix : Z) (c : ascii) : option Z :=
  let n := Z.of_N (code c) in
  if (48 <=? n) && (n <=? 57) then Some (n - 48)
  else if radix =? 16 then
    if (97 <=? n) && (n <=? 102) then Some (n - 87)
    else if (65 <=? n) && (n <=? 70) then Some (n - 55)
    else None
  else None.

(** The integer the longest prefix of digits of [s] denotes, after the
    digits already read ([None] when none has been read). *)
Fixpoint digits (radix : Z) (s : string) (read : option Z) : option Z :=
  match s with
  | EmptyString => read
  | String c rest =>
      match digit radix c with
      | Some d =>
          digits radix rest
            (Some (radix * match read with Some m => m | None => 0 end + d))
      | None => read
      end
  end.

(** [parseInt(s)], without a radix: [None] is [NaN], [Some n] the
    mathematical value of the result.  The handlers compare the result
    with 1 and 30 and use it as a key of a table of small integers, which
    the rounding of an integer beyond 2^53 to a binary64 value and the sign
    of zero do not affect. *)
Definition parseInt (s : string) : option Z :=
  let s := trimStart s in
  let '(sign, s) :=
    match s with
    | String c rest =>
        if Ascii.eqb c "-" then (-1, rest)
        else if Ascii.eqb c "+" then (1, rest)
        else (1, s)
    | EmptyString => (1, s)
    end in
  let '(radix, s) :=
    match s with
    | String c (String x rest) =>
        if Ascii.eqb c "0" && (Ascii.eqb x "x" || Ascii.eqb x "X")
        then (16, rest) else (10, s)
    | _ => (10, s)
    end in
  match digits radix s None with
  | Some m => Some (sign * m)
  | None => None
  end.

(* ===================================================================== *)
(** * Daily prompts and milestones: [/api/daily-prompt/:day] and
      [/api/milestone/:day] *)
(* ===================================================================== *)

Module DailyPrompt.

(** The table [prompts]. *)
Definition prompts (day : Z) : option string :=
  if day =? 1 then
    Some "Day 1: You're not starting over. You're starting new. That's a different energy. Own it."
  else if day =? 5 then
    Some "Day 5: Milestone. You showed up 5 days in a row. That's not luck—that's discipline. Keep building."
  else if day =? 10 then
    Some "Day 10: You're one-third through. The person who started this isn't the same person reading this now. Notice that."
  else if day =? 15 then
    Some "Day 15: Halfway. This is where most people quit. You're not most people."
  else if day =? 20 then
    Some "Day 20: The habit is forming. It's no longer about willpower—it's about identity."
  else if day =? 25 then
    Some "Day 25: Five days left. You can see the finish line. Don't coast. Finish strong."
  else if day =? 30 then
    Some "Day 30: You did it. 30 days of discipline, consistency, and growth. This isn't the end—it's the foundation."
  else None.

(** The generic prompt of a day without an entry in the table. *)
Definition fallback (day : Z) : string :=
  "Day " ++ Number_toString day
  ++ ": Show up. Do the work. Trust the process. That's how transformation happens.".

(** The handler, on the route parameter [req.params.day]. *)
Definition daily_prompt (param : string) : Reply string :=
  match parseInt param with
  | None => Err 400 "Invalid day number"
  | Some day =>
      if (day <? 1) || (30 <? day) then Err 400 "Invalid day number"
      else
        Ok match prompts day with
           | Some prompt =>
               if String.eqb prompt "" then fallback day else prompt
           | None => fallback day
           end
  end.

End DailyPrompt.

Module Milestone.

Record t : Type := {
  title : string;
  message : string;
  icon : string
}.

(** The table [milestones]. *)
Definition milestones (day : Z) : option t :=
  if day =? 5 then
    Some {| title := "Day 5: Momentum Building";
            message := "You've made it through the hardest part—the start. Your body is adapting. Your mind is getting stronger. This is where real change begins.";
            icon := "trending-up" |}
  else if day =? 10 then
    Some {| title := "Day 10: Breaking Through";
            message := "Ten days of discipline. You're proving to yourself that you can do this. The person you're becoming is taking shape.";
            icon := "zap" |}
  else if day =? 15 then
    Some {| title := "Halfway There";
            message := "Fifteen days. You've crossed the halfway mark. The habits are forming. The results are showing. Keep pushing.";
            icon := "award" |}
  else if day =? 20 then
    Some {| title := "Day 20: Unstoppable";
            message := "Twenty days of showing up. Twenty days of choosing discipline over comfort. You're not the same person who started this journey.";
            icon := "star" |}
  else if day =? 25 then
    Some {| title := "The Final Stretch";
            message := "Five days left. You can see the finish line. But this isn't about finishing—it's about building a life. Stay focused.";
            icon := "target" |}
  else if day =? 30 then
    Some {| title := "Transformation Complete";
            message := "Thirty days. You did it. But this isn't the end—it's the beginning of who you've become. The discipline you built here? That's yours forever.";
            icon := "check-circle" |}
  else None.

(** The handler, on the route parameter [req.params.day]. *)
Definition milestone (param : string) : Reply t :=
  match parseInt param with
  | None => Err 400 "Invalid day number"
  | Some day =>
      match milestones day with
      | Some m => Ok m
      | None => Err 404 "No milestone for this day"
      end
  end.

End Milestone.

(* ===================================================================== *)
(** * Allowed origins: the [origin] callback of [cors] *)
(* ===================================================================== *)

Module RegExp.

(** Regular expressions over characters, for the patterns of
    [allowedOrigins]: no captures, no look-around, so that [test] is
    membership in the language of the pattern. *)
Inductive t : Type :=
| Void
| Eps
| Class (p : ascii -> bool)
| Seq (r1 r2 : t)
| Alt (r1 r2 : t)
| Star (r : t).

(** A single character. *)
Definition Chr (c : ascii) : t := Class (Ascii.eqb c).

(** A literal text. *)
Fixpoint Lit (s : string) : t :=
  match s with
  | EmptyString => Eps
  | String c rest => Seq (Chr c) (Lit rest)
  end.

(** [r+] *)
Definition Plus (r : t) : t := Seq r (Star r).

Fixpoint nullable (r : t) : bool :=
  match r with
  | Void => false
  | Eps => true
  | Class _ => false
  | Seq r1 r2 => nullable r1 && nullable r2
  | Alt r1 r2 => nullable r1 || nullable r2
  | Star _ => true
  end.

(** The derivative of [r] by the character [c]. *)
Fixpoint deriv (c : ascii) (r : t) : t :=
  match r with
  | Void => Void
  | Eps => Void
  | Class p => if p c then Eps else Void
  | Seq r1 r2 =>
      if nullable r1 then Alt (Seq (deriv c r1) r2) (deriv c r2)
      else Seq (deriv c r1) r2
  | Alt r1 r2 => Alt (deriv c r1) (deriv c r2)
  | Star r => Seq (deriv c r) (Star r)
  end.

(** [/^r$/.test(s)]: the whole of [s] matches [r]. *)
Fixpoint matches (r : t) (s : string) : bool :=
  match s with
  | EmptyString => nullable r
  | String c rest => matches (deriv c r) rest
  end.

End RegExp.

Module Cors.

(** An entry of [allowedOrigins]: a string or a regular expression. *)
Inductive Allowed : Type :=
| Exact (s : string)
| Pattern (r : RegExp.t).

(** [[a-z0-9-]] *)
Definition label_char (c : ascii) : bool :=
  ((97 <=? code c) && (code c <=? 122)
   || (48 <=? code c) && (code c <=? 57)
   || (code c =? 45))%N.

(** [.]: any character but a line terminator.  An origin is the value of
    an HTTP header, whose characters are below 256: the line terminators
    among them are the line feed and the carriage return. *)
Definition dot (c : ascii) : bool :=
  negb ((code c =? 10) || (code c =? 13))%N.

Definition any (c : ascii) : bool := true.

(** [/^https:\/\/[a-z0-9-]+\.replit\.dev$/] *)
Definition replit_dev : RegExp.t :=
  RegExp.Seq (RegExp.Lit "https://")
    (RegExp.Seq (RegExp.Plus (RegExp.Class label_char))
       (RegExp.Lit ".replit.dev")).

(** [/^https:\/\/[a-z0-9-]+\.replit\.app$/] *)
Definition replit_app : RegExp.t :=
  RegExp.Seq (RegExp.Lit "https://")
    (RegExp.Seq (RegExp.Plus (RegExp.Class label_char))
       (RegExp.Lit ".replit.app")).

(** [/^exp:\/\/.+/]: not anchored at the end, so anything may follow. *)
Definition expo : RegExp.t :=
  RegExp.Seq (RegExp.Lit "exp://")
    (RegExp.Seq (RegExp.Plus (RegExp.Class dot))
       (RegExp.Star (RegExp.Class any))).

Definition allowedOrigins : list Allowed :=
  [ Exact "https://reforge-backend-final.onrender.com";
    Pattern replit_dev;
    Pattern replit_app;
    Pattern expo ].

(** [allowedOrigins.some(allowed => ...)] *)
Definition isAllowed (origin : string) : bool :=
  existsb
    (fun allowed =>
       match allowed with
       | Exact s => String.eqb s origin
       | Pattern r => RegExp.matches r origin
       end)
    allowedOrigins.

(** What the callback is called with: no error, or the error. *)
Inductive Decision : Type :=
| Allow
| Block (error : string).

(** The [origin] option of [cors]; [None] is a request without an
    [Origin] header. *)
Definition origin (origin : option string) : Decision :=
  match origin with
  | None => Allow
  | Some origin =>
      if String.eqb origin "" then Allow
      else if isAllowed origin then Allow
      else Block "Not allowed by CORS"
  end.

End Cors.

(* ===================================================================== *)
(** * Vocabulary of the statements *)
(* ===================================================================== *)

(** The [role] property of a message, [None] when it has none. *)
Definition role_of (m : JSON) : option JSON :=
  match m with
  | JObj properties => lookup "role" properties
  | _ => None
  end.

(** The message has role "system". *)
Definition is_system (m : JSON) : bool :=
  strict_equals_string (role_of m) "system".

Definition non_system (m : JSON) : bool := negb (is_system m).

(** What the truncation computes when no element is [null], with the list
    functions of the standard library: the first system message, if any,
    before the last twelve of the other messages. *)
Definition truncation (l : list JSON) : list JSON :=
  match List.find is_system l with
  | Some m => m :: Array.slice_last 12 (List.filter non_system l)
  | None => Array.slice_last 12 (List.filter non_system l)
  end.

(** [s] is [l] with some elements left out, the others in their order. *)
Inductive Subsequence {A : Type} : list A -> list A -> Prop :=
| sub_nil : Subsequence [] []
| sub_skip x s l : Subsequence s l -> Subsequence s (x :: l)
| sub_keep x s l : Subsequence s l -> Subsequence (x :: s) (x :: l).

(** The workout the loop of the generator pushes for [day], from the flags
    and the time the handler computed before the loop. *)
Definition workout_of_day (o : Program.Onboarding)
  (hasEquipment hasDumbbells hasBarbell : bool) (timePerWorkout : Z)
  (day : Z) : Workout.t :=
  if Z.rem day 7 =? 0 then Program.restDayWorkout day
  else
    Program.generateWorkoutForDay day o hasEquipment hasDumbbells hasBarbell
      timePerWorkout.

(** The same, with the flags the handler computes from the onboarding. *)
Definition program_day (o : Program.Onboarding) (day : Z) : Workout.t :=
  workout_of_day o
    (0 <? Z.of_nat (length (Program.equipment o)))
    (Program.includes (Program.equipment o) "Dumbbells")
    (Program.includes (Program.equipment o) "Barbell")
    (Program.timeAvailability o) day.

(** The onboarding with the given equipment and time. *)
Definition onboarding_with (equipment : list string) (t : Z)
  : Program.Onboarding :=
  {| Program.equipment := equipment; Program.timeAvailability := t |}.

(** The names of the barbell variant lists. *)
Definition barbell_upper_names : list string :=
  ["Barbell Bench Press"; "Barbell Row"; "Overhead Press"; "Barbell Curl";
   "Tricep Extension"].

Definition barbell_lower_names : list string :=
  ["Barbell Squat"; "Romanian Deadlift"; "Bulgarian Split Squat";
   "Leg Curl"; "Calf Raises"].

Definition is_upper_or_lower (w : Workout.t) : bool :=
  String.eqb (Workout.type w) "Upper Body"
  || String.eqb (Workout.type w) "Lower Body".

(** The exercise lists of the Upper Body and Lower Body workouts of a
    program, each with its day. *)
Definition upper_lower_exercises (workouts : list Workout.t)
  : list (Z * list Exercise.t) :=
  map (fun w => (Workout.day w, Workout.exercises w))
    (List.filter is_upper_or_lower workouts).

(** Stand-ins for the two conversions, for inputs on which neither is
    consulted (a coaching style that is a number, or absent). *)
Definition unused_StringToNumber : string -> float := fun _ => nan.
Definition unused_ToPrimitive : JSON -> string := fun _ => "".

(** The onboarding data with the given coaching style and nothing else. *)
Definition with_coachingStyle (v : option JSON) : Persona.OnboardingData :=
  {| Persona.coachingStyle := v; Persona.name := None;
     Persona.goal := None; Persona.equipment := None;
     Persona.injuries := None; Persona.emotionalBarriers := None;
     Persona.whyStatement := None; Persona.trainingDaysPerWeek := None |}.

(** The style label of a numeric coaching style. *)
Definition label_of (x : float) : string :=
  Persona.styleLabel unused_StringToNumber unused_ToPrimitive
    (with_coachingStyle (Some (JNum x))).

(** An onboarding with both a barbell and dumbbells, 45 minutes a day. *)
Definition barbell_and_dumbbells : Program.Onboarding :=
  {| Program.equipment := ["Dumbbells"; "Barbell"];
     Program.timeAvailability := 45 |}.

(** The upstream key is configured: set, and not the empty string. *)
Definition configured (key : option string) : Prop :=
  exists k, key = Some k /\ k <> "".

(** A message object. *)
Definition message (role content : string) : JSON :=
  JObj [("role", JStr role); ("content", JStr content)].

(** A history of a greeting, a system message, fourteen further turns and a
    second system message. *)
Definition long_history : list JSON :=
  (message "user" "hello" :: message "system" "persona"
     :: map (fun n => message "user" (Number_toString (Z.of_nat n)))
          (seq 1 14)
     ++ [message "system" "late persona"])%list.

(** An input whose carbohydrate remainder is negative under every goal:
    weight 40, age 60 and a height of 1.5 (metres where the formula expects
    centimetres), which gives a BMR of 114.375. *)
Definition extreme_input (g : string) : Nutrition.Onboarding :=
  {| Nutrition.weight := 40; Nutrition.height := 1.5; Nutrition.age := 60;
     Nutrition.fitnessLevel := "beginner"; Nutrition.goal := g |}.

(** The worked scenario of the specification. *)
Definition scenario : Nutrition.Onboarding :=
  {| Nutrition.weight := 75; Nutrition.height := 175; Nutrition.age := 30;
     Nutrition.fitnessLevel := "intermediate"; Nutrition.goal := "shred" |}.

(** [s] is in the language of the regular expression [r]. *)
Inductive Matches : RegExp.t -> string -> Prop :=
| MEps : Matches RegExp.Eps ""
| MClass p c : p c = true -> Matches (RegExp.Class p) (String c "")
| MSeq r1 r2 s1 s2 :
    Matches r1 s1 -> Matches r2 s2 ->
    Matches (RegExp.Seq r1 r2) (s1 ++ s2)%string
| MAltL r1 r2 s : Matches r1 s -> Matches (RegExp.Alt r1 r2) s
| MAltR r1 r2 s : Matches r2 s -> Matches (RegExp.Alt r1 r2) s
| MStar0 r : Matches (RegExp.Star r) ""
| MStarS r s1 s2 :
    Matches r s1 -> Matches (RegExp.Star r) s2 ->
    Matches (RegExp.Star r) (s1 ++ s2)%string.

(** Every character of [s] satisfies [p]. *)
Fixpoint all_chars (p : ascii -> bool) (s : string) : bool :=
  match s with
  | EmptyString => true
  | String c rest => p c && all_chars p rest
  end.

(** [c] is a decimal digit. *)
Definition decimal (c : ascii) : bool :=
  match digit 10 c with
  | Some _ => true
  | None => false
  end.

(** [s] is empty or begins with a character that is not a decimal digit. *)
Definition stops (s : string) : bool :=
  match s with
  | EmptyString => true
  | String c _ => negb (decimal c)
  end.

(** The weekly template: the type of the workout of a day. *)
Definition template (day : Z) : string :=
  match Z.rem day 7 with
  | 1 | 4 => "Upper Body"
  | 2 | 5 => "Lower Body"
  | 3 | 6 => "Full Body Circuit"
  | _ => "Active Recovery"
  end.

(** The number of workouts of a type in a program. *)
Definition count_type (type : string) (workouts : list Workout.t) : nat :=
  length (List.filter (fun w => String.eqb (Workout.type w) type) workouts).

(** The strings of [l] are pairwise distinct. *)
Fixpoint all_distinct (l : list string) : bool :=
  match l with
  | [] => true
  | x :: rest => negb (existsb (String.eqb x) rest) && all_distinct rest
  end.

(** The names of the other variant lists. *)
Definition dumbbell_upper_names : list string :=
  ["Dumbbell Bench Press"; "Dumbbell Row"; "Dumbbell Shoulder Press";
   "Dumbbell Curl"; "Overhead Tricep Extension"].

Definition dumbbell_lower_names : list string :=
  ["Goblet Squat"; "Dumbbell Romanian Deadlift"; "Dumbbell Lunges";
   "Single-Leg Deadlift"; "Dumbbell Calf Raises"].

Definition bodyweight_upper_names : list string :=
  ["Push-ups"; "Inverted Rows"; "Pike Push-ups"; "Diamond Push-ups";
   "Plank Hold"].

Definition bodyweight_lower_names : list string :=
  ["Bodyweight Squat"; "Single-Leg Romanian Deadlift";
   "Bulgarian Split Squat"; "Glute Bridge"; "Wall Sit"].

Definition equipment_circuit_names : list string :=
  ["Dumbbell Thruster"; "Renegade Row"; "Goblet Squat"; "Dumbbell Swing";
   "Mountain Climbers"].

Definition bodyweight_circuit_names : list string :=
  ["Burpees"; "Jump Squats"; "Push-ups"; "Plank to Downward Dog";
   "High Knees"].

(** A chat request with the long history and no other property, and the
    request the handler sends upstream for it. *)
Definition long_chat : Chat.Body :=
  {| Chat.messages := Some (JArr long_history);
     Chat.temperature := None; Chat.maxTokens := None;
     Chat.stream := None |}.

Definition long_request : Upstream.Request :=
  {| Upstream.model := "gpt-4o-mini";
     Upstream.messages := truncation long_history;
     Upstream.temperature := JNum 0.8;
     Upstream.max_tokens := JNum 300;
     Upstream.stream := JBool true |}.

(** An exercise of a training day has 3 to 5 sets and 30 to 120 seconds
    of rest. *)
Definition exercise_in_bounds (x : Exercise.t) : Prop :=
  3 <= Exercise.sets x <= 5 /\ 30 <= Exercise.rest x <= 120.

(** [x'] is the exercise [x] with at least as many sets. *)
Definition progresses (x x' : Exercise.t) : Prop :=
  Exercise.name x = Exercise.name x' /\
  Exercise.reps x = Exercise.reps x' /\
  Exercise.rest x = Exercise.rest x' /\
  Exercise.sets x <= Exercise.sets x'.

(** An onboarding with equipment that is neither a barbell nor dumbbells. *)
Definition bands_only : Program.Onboarding :=
  {| Program.equipment := ["Resistance Bands"];
     Program.timeAvailability := 30 |}.

Definition dumbbells_only : Program.Onboarding :=
  {| Program.equipment := ["Dumbbells"]; Program.timeAvailability := 30 |}.

(** A nutrition onboarding with another fitness level, or another goal. *)
Definition with_level (level : string) (o : Nutrition.Onboarding)
  : Nutrition.Onboarding :=
  {| Nutrition.weight := Nutrition.weight o;
     Nutrition.height := Nutrition.height o;
     Nutrition.age := Nutrition.age o;
     Nutrition.fitnessLevel := level;
     Nutrition.goal := Nutrition.goal o |}.

Definition with_goal (goal : string) (o : Nutrition.Onboarding)
  : Nutrition.Onboarding :=
  {| Nutrition.weight := Nutrition.weight o;
     Nutrition.height := Nutrition.height o;
     Nutrition.age := Nutrition.age o;
     Nutrition.fitnessLevel := Nutrition.fitnessLevel o;
     Nutrition.goal := goal |}.

(** [v] has no primitive value: it is an object with an own [toString]
    property, or an array with such an element, at any depth of arrays. *)
Inductive Inconvertible : JSON -> Prop :=
| InconvertibleObject properties value :
    lookup "toString" properties = Some value ->
    Inconvertible (JObj properties)
| InconvertibleArray elements e :
    In e elements -> Inconvertible e -> Inconvertible (JArr elements).

(** A property that is present and has no primitive value. *)
Definition inconvertible (v : option JSON) : Prop :=
  exists x, v = Some x /\ Inconvertible x.

(** A persona request whose coaching style is [{ "toString": 1 }]. *)
Definition inconvertible_style : Persona.Body :=
  {| Persona.onboardingData :=
       Some {| Persona.coachingStyle := Some (JObj [("toString", JNum 1)]);
               Persona.name := Some "Al";
               Persona.goal := Some "build";
               Persona.equipment := Some ["Barbell"; "Dumbbells"];
               Persona.injuries := None;
               Persona.emotionalBarriers := None;
               Persona.whyStatement := None;
               Persona.trainingDaysPerWeek := Some 5 |};
     Persona.progressData := None;
     Persona.journalEntries := None |}.

Section JSON_induction.

(** Induction on a JSON value through the elements of arrays. *)
Variable P : JSON -> Prop.
Hypothesis HNull : P JNull.
Hypothesis HBool : forall b, P (JBool b).
Hypothesis HNum : forall x, P (JNum x).
Hypothesis HStr : forall s, P (JStr s).
Hypothesis HArr : forall elements, Forall P elements -> P (JArr elements).
Hypothesis HObj : forall properties, P (JObj properties).

Fixpoint JSON_elements_ind (v : JSON) : P v :=
  match v with
  | JNull => HNull
  | JBool b => HBool b
  | JNum x => HNum x
  | JStr s => HStr s
  | JArr elements =>
      HArr elements
        ((fix all (l : list JSON) : Forall P l :=
            match l with
            | [] => Forall_nil P
            | e :: rest => Forall_cons e (JSON_elements_ind e) (all rest)
            end) elements)
  | JObj properties => HObj properties
  end.

End JSON_induction.

(** Case analysis on the comparisons of [SFcompare]. *)
Ltac sf_cases :=
  repeat match goal with
         | s : bool |- _ => destruct s
         end;
  simpl; try congruence;
  repeat match goal with
         | |- context [Z.compare ?a ?b] =>
             destruct (Z.compare_spec a b); subst; try lia
         | H : context [Z.compare ?a ?b] |- _ =>
             destruct (Z.compare_spec a b); subst; try lia
         end;
  simpl; try congruence;
  change (Pos.compare_cont Eq) with Pos.compare in *;
  repeat match goal with
         | |- context [Pos.compare ?a ?b] =>
             destruct (Pos.compare_spec a b); subst; try lia
         | H : context [Pos.compare ?a ?b] |- _ =>
             destruct (Pos.compare_spec a b); subst; try lia
         end;
  simpl in *; try congruence; try lia.

(* ===================================================================== *)
(** * Worked examples *)
(* ===================================================================== *)

(** [Math.round] on ties, on negative values and next to one half. *)
Example round_half_up :
  Math.round 2.5 = 3%float /\ Math.round (-2.5) = (-2)%float /\
  Math.round 509.5 = 510%float /\ Math.round (-21.5) = (-21)%float.
Proof. repeat split; vm_compute; reflexivity. Qed.

Example round_nearest :
  Math.round 2548.125 = 2548%float /\ Math.round (-2.6) = (-3)%float /\
  Math.round 0.49999999999999994 = 0%float /\
  Math.round 4503599627370497 = 4503599627370497%float.
Proof. repeat split; vm_compute; reflexivity. Qed.

Example round_special :
  Math.round (-0.2) = (-0)%float /\ Math.round infinity = infinity /\
  PrimFloat.is_nan (Math.round nan) = true.
Proof. repeat split; vm_compute; reflexivity. Qed.

(** A short history goes through unchanged. *)
Example short_history_unchanged :
  Chat.optimizedMessages [message "user" "hi"; message "assistant" "hello"] =
    Normal [message "user" "hi"; message "assistant" "hello"].
Proof. reflexivity. Qed.

(** A [null] among the messages makes the truncation throw, and the
    handler reject without a response or an upstream request. *)
Example null_message_rejects :
  Chat.optimizedMessages [message "user" "hi"; JNull] = Throws /\
  run (fun _ => None)
    (Chat.chat (Some "sk-test")
       {| Chat.messages := Some (JArr [message "user" "hi"; JNull]);
          Chat.temperature := None; Chat.maxTokens := None;
          Chat.stream := None |}) = ([], None).
Proof. split; reflexivity. Qed.

(** A [maxTokens] of [{ "toString": 1 }] has no primitive value: the
    logged template literal throws before the [try], and the handler ends
    without a response or an upstream request.  Inside an array it does the
    same; an object without [toString], or [null], is logged and sent. *)
Example inconvertible_maxTokens_rejects :
  ToString (JObj [("toString", JNum 1)]) = Throws /\
  ToString (JArr [JNum 1; JArr [JObj [("toString", JNull)]]]) = Throws /\
  ToString (JArr [JNull; JObj [("valueOf", JNum 1)]]) = Normal tt /\
  run (fun _ => None)
    (Chat.chat (Some "sk-test")
       {| Chat.messages := Some (JArr [message "user" "hi"]);
          Chat.temperature := None;
          Chat.maxTokens := Some (JObj [("toString", JNum 1)]);
          Chat.stream := None |}) = ([], None) /\
  fst (run (fun _ => None)
         (Chat.chat (Some "sk-test")
            {| Chat.messages := Some (JArr [message "user" "hi"]);
               Chat.temperature := Some JNull;
               Chat.maxTokens := Some (JObj []);
               Chat.stream := None |})) =
    [ {| Upstream.model := "gpt-4o-mini";
         Upstream.messages := [message "user" "hi"];
         Upstream.temperature := JNull;
         Upstream.max_tokens := JObj [];
         Upstream.stream := JBool true |} ].
Proof. repeat split. Qed.

(** A completion whose usage counts cannot be logged is answered with
    status 500; one without usage is relayed as it is. *)
Example usage_logged :
  Chat.relay (JBool false)
    (Some {| Upstream.ok := true; Upstream.status := 200;
             Upstream.json :=
               Some (JObj [("usage",
                            JObj [("prompt_tokens",
                                   JObj [("toString", JNum 1)])])]);
             Upstream.reader := None |}) =
    Chat.ErrorJson 500 (JStr "Internal server error") /\
  Chat.relay (JBool false)
    (Some {| Upstream.ok := true; Upstream.status := 200;
             Upstream.json := Some (JObj [("id", JStr "c1")]);
             Upstream.reader := None |}) =
    Chat.CompletionJson (JObj [("id", JStr "c1")]).
Proof. split; reflexivity. Qed.

(** A coaching style of [{ "toString": 1 }] makes [Number] throw, and with
    it the persona handler. *)
Example inconvertible_style_throws :
  run (fun _ => None)
    (Persona.system_prompt unused_StringToNumber unused_ToPrimitive
       inconvertible_style) = ([], None).
Proof. reflexivity. Qed.

(** An upstream error is relayed with its status and message. *)
Example upstream_error_relayed :
  snd (run
         (fun _ =>
            Some {| Upstream.ok := false; Upstream.status := 429;
                    Upstream.json :=
                      Some (JObj [("error",
                                   JObj [("message", JStr "Rate limit")])]);
                    Upstream.reader := None |})
         (Chat.chat (Some "sk-test")
            {| Chat.messages := Some (JArr [message "user" "hi"]);
               Chat.temperature := None; Chat.maxTokens := None;
               Chat.stream := None |})) =
    Some (Chat.ErrorJson 429 (JStr "Rate limit")).
Proof. reflexivity. Qed.

(** The first week and the last two days of a barbell program: type and
    sets of each exercise. *)
Example barbell_program_days :
  map (fun w => (Workout.day w, Workout.type w,
                 map Exercise.sets (Workout.exercises w)))
    (firstn 7 (Program.workouts barbell_and_dumbbells)
     ++ skipn 28 (Program.workouts barbell_and_dumbbells))%list =
    [ (1, "Upper Body", [3; 3; 3; 3; 3]);
      (2, "Lower Body", [3; 3; 3; 3; 4]);
      (3, "Full Body Circuit", [3; 3; 3; 3; 3]);
      (4, "Upper Body", [3; 3; 3; 3; 3]);
      (5, "Lower Body", [3; 3; 3; 3; 4]);
      (6, "Full Body Circuit", [3; 3; 3; 3; 3]);
      (7, "Active Recovery", [1]);
      (29, "Upper Body", [5; 5; 5; 3; 3]);
      (30, "Lower Body", [5; 5; 5; 3; 4]) ].
Proof. vm_compute. reflexivity. Qed.

(** The prompt of a request with an empty onboarding object: every
    default of the handler shows in the user-context and progress blocks. *)
Example default_prompt :
  Persona.systemPrompt unused_StringToNumber unused_ToPrimitive
    (with_coachingStyle None) None None =
    (Persona.prompt_head
     ++ "balanced
- direct
- grounded
- neutral intensity"
     ++ Persona.prompt_rules
     ++ "there
Goal: RESET (sustainable habits, wellness)
Training: 4 days/week
Equipment: Bodyweight only
Injuries/Limitations: None reported



===== PROGRESS =====
Current Day: 1/21
Current Streak: 0 days
Identity Arc Phase: GROUNDING
"
     ++ Persona.prompt_tail)%string.
Proof. vm_compute. reflexivity. Qed.

(* ===================================================================== *)
(** * Properties of the macro calculator *)
(* ===================================================================== *)

(** C5: in each goal branch (shred, build, and the remaining "reset"
    branch) the carbohydrate calories are exactly
    [targetCalories - proteinGrams * 4 - round (targetCalories * 0.25)] and
    the carbohydrate grams are [round (carbCalories / 4)]; the handler
    returns that value as it is, with no clamping, and it is negative for
    extreme inputs in each of the three branches. *)
Theorem carb_calories_remainder_unclamped :
  (forall o : Nutrition.Onboarding,
      (Nutrition.targetCalories o =
         if String.eqb (Nutrition.goal o) "shred"
         then Math.round (Nutrition.maintenanceCalories o * 0.8)
         else if String.eqb (Nutrition.goal o) "build"
         then Math.round (Nutrition.maintenanceCalories o * 1.1)
         else Nutrition.maintenanceCalories o) /\
      Nutrition.carbCalories o =
        (Nutrition.targetCalories o - Nutrition.proteinGrams o * 4
         - Math.round (Nutrition.targetCalories o * 0.25))%float /\
      Nutrition.carbGrams o = Math.round (Nutrition.carbCalories o / 4) /\
      exists t,
        Nutrition.calculate_nutrition (Some o) = Ok t /\
        Nutrition.carbs t = Nutrition.carbGrams o) /\
  (Nutrition.carbCalories (extreme_input "shred") = (-103)%float /\
   Nutrition.carbGrams (extreme_input "shred") = (-26)%float) /\
  (Nutrition.carbCalories (extreme_input "build") = (-37)%float /\
   Nutrition.carbGrams (extreme_input "build") = (-9)%float) /\
  (Nutrition.carbCalories (extreme_input "reset") = (-32)%float /\
   Nutrition.carbGrams (extreme_input "reset") = (-8)%float).
Proof.
  split.
  - intros o. repeat split.
    + unfold Nutrition.targetCalories, Nutrition.goalBranch.
      destruct (String.eqb (Nutrition.goal o) "shred"); [reflexivity|].
      destruct (String.eqb (Nutrition.goal o) "build"); reflexivity.
    + eexists. split; reflexivity.
  - repeat split; vm_compute; reflexivity.
Qed.

(** C6: for weight 75, height 175, age 30, goal "shred" and fitness level
    "intermediate", the BMR is 1698.75, the maintenance calories are
    [round (1698.75 * 1.5) = 2548], the target is
    [round (2548 * 0.8) = 2038], protein, fat and carbohydrates take 360,
    510 and 1168 calories, and the handler returns calories 2038, protein
    90, carbs 292 and fats 57. *)
Theorem nutrition_scenario :
  Nutrition.bmr scenario = 1698.75%float /\
  Nutrition.maintenanceCalories scenario = Math.round (1698.75 * 1.5) /\
  Nutrition.maintenanceCalories scenario = 2548%float /\
  Nutrition.targetCalories scenario = Math.round (2548 * 0.8) /\
  Nutrition.targetCalories scenario = 2038%float /\
  Nutrition.proteinCalories scenario = 360%float /\
  Nutrition.fatCalories scenario = 510%float /\
  Nutrition.carbCalories scenario = 1168%float /\
  Nutrition.calculate_nutrition (Some scenario) =
    Ok {| Nutrition.calories := 2038; Nutrition.protein := 90;
          Nutrition.carbs := 292; Nutrition.fats := 57;
          Nutrition.meals := [] |}.
Proof. repeat split; vm_compute; reflexivity. Qed.

(* ===================================================================== *)
(** * Properties of the conversation truncator *)
(* ===================================================================== *)

Lemma get_role (m : JSON) :
  m <> JNull -> get m "role" = Normal (role_of m).
Proof. destruct m; simpl; congruence. Qed.

Lemma isSystem_pure (m : JSON) :
  m <> JNull -> Chat.isSystem m = Normal (is_system m).
Proof.
  intros H. unfold Chat.isSystem. now rewrite (get_role m H).
Qed.

Lemma isNotSystem_pure (m : JSON) :
  m <> JNull -> Chat.isNotSystem m = Normal (non_system m).
Proof.
  intros H. unfold Chat.isNotSystem. now rewrite (get_role m H).
Qed.

(** On a list without [null], the two array methods of the handler are
    the list functions of the same name. *)
Lemma find_pure (l : list JSON) :
  Forall (fun m => m <> JNull) l ->
  Array.find Chat.isSystem l = Normal (List.find is_system l).
Proof.
  induction 1 as [| m l Hm _ IH]; simpl; [reflexivity|].
  rewrite (isSystem_pure m Hm). simpl.
  destruct (is_system m); [reflexivity | exact IH].
Qed.

Lemma filter_pure (l : list JSON) :
  Forall (fun m => m <> JNull) l ->
  Array.filter Chat.isNotSystem l = Normal (List.filter non_system l).
Proof.
  induction 1 as [| m l Hm _ IH]; simpl; [reflexivity|].
  rewrite (isNotSystem_pure m Hm), IH. simpl.
  destruct (non_system m); reflexivity.
Qed.

Lemma is_system_truthy (m : JSON) : is_system m = true -> truthy m = true.
Proof. destruct m; simpl; try discriminate; reflexivity. Qed.

Lemma optimizedMessages_truncation (l : list JSON) :
  Forall (fun m => m <> JNull) l ->
  Chat.optimizedMessages l = Normal (truncation l).
Proof.
  intros H. unfold Chat.optimizedMessages, truncation.
  rewrite (find_pure l H), (filter_pure l H). simpl.
  destruct (List.find is_system l) as [m|] eqn:Hfind; [|reflexivity].
  apply find_some in Hfind. destruct Hfind as [_ Hsys].
  now rewrite (is_system_truthy m Hsys).
Qed.

Lemma slice_last_length {A : Type} (n : nat) (l : list A) :
  (length (Array.slice_last n l) <= n)%nat.
Proof. unfold Array.slice_last. rewrite length_skipn. lia. Qed.

Lemma slice_last_length_min {A : Type} (n : nat) (l : list A) :
  length (Array.slice_last n l) = Nat.min n (length l).
Proof. unfold Array.slice_last. rewrite length_skipn. lia. Qed.

Lemma slice_last_suffix {A : Type} (n : nat) (l : list A) :
  exists dropped, l = (dropped ++ Array.slice_last n l)%list.
Proof.
  exists (firstn (length l - n) l). unfold Array.slice_last.
  symmetry. apply firstn_skipn.
Qed.

Lemma suffix_Forall {A : Type} (P : A -> Prop) (pre suf : list A) :
  Forall P (pre ++ suf)%list -> Forall P suf.
Proof. intros H. apply Forall_app in H. tauto. Qed.

Lemma filter_all {A : Type} (p : A -> bool) (l : list A) :
  Forall (fun x => p x = true) l -> List.filter p l = l.
Proof.
  induction 1 as [| x l Hx _ IH]; simpl; [reflexivity|].
  now rewrite Hx, IH.
Qed.

Lemma filter_Forall {A : Type} (p : A -> bool) (l : list A) :
  Forall (fun x => p x = true) (List.filter p l).
Proof.
  apply Forall_forall. intros x Hx. apply filter_In in Hx. tauto.
Qed.

Lemma slice_last_non_system (l : list JSON) :
  Forall (fun m => non_system m = true)
    (Array.slice_last 12 (List.filter non_system l)).
Proof.
  destruct (slice_last_suffix 12 (List.filter non_system l)) as [d Hd].
  apply (suffix_Forall _ d). rewrite <- Hd. apply filter_Forall.
Qed.

Lemma Subsequence_refl {A : Type} (l : list A) : Subsequence l l.
Proof. induction l; constructor; assumption. Qed.

Lemma Subsequence_filter {A : Type} (p : A -> bool) (l : list A) :
  Subsequence (List.filter p l) l.
Proof.
  induction l as [| x l IH]; simpl; [constructor|].
  destruct (p x); constructor; assumption.
Qed.

Lemma Subsequence_app_skip {A : Type} (d s l : list A) :
  Subsequence s l -> Subsequence s (d ++ l)%list.
Proof. intros H. induction d; simpl; [assumption | now constructor]. Qed.

Lemma Subsequence_trans {A : Type} (a b c : list A) :
  Subsequence a b -> Subsequence b c -> Subsequence a c.
Proof.
  intros Hab Hbc. revert a Hab.
  induction Hbc as [| x s l _ IH | x s l _ IH]; intros a Hab.
  - assumption.
  - constructor. now apply IH.
  - inversion Hab; subst; constructor; now apply IH.
Qed.

(** The non-system messages the truncation keeps: the last twelve of the
    input's, as a suffix of them. *)
Lemma truncation_non_system (l : list JSON) :
  List.filter non_system (truncation l) =
    Array.slice_last 12 (List.filter non_system l).
Proof.
  unfold truncation.
  destruct (List.find is_system l) as [m|] eqn:Hfind.
  - apply find_some in Hfind. destruct Hfind as [_ Hsys]. simpl.
    unfold non_system at 1. rewrite Hsys. simpl.
    apply filter_all, slice_last_non_system.
  - apply filter_all, slice_last_non_system.
Qed.

Lemma filter_none {A : Type} (p : A -> bool) (l : list A) :
  Forall (fun x => p x = false) l -> List.filter p l = [].
Proof.
  induction 1 as [| x l Hx _ IH]; simpl; [reflexivity|].
  now rewrite Hx.
Qed.

Lemma slice_last_no_system (l : list JSON) :
  List.filter is_system (Array.slice_last 12 (List.filter non_system l)) = [].
Proof.
  apply filter_none.
  eapply Forall_impl; [| apply slice_last_non_system].
  intros m Hm. unfold non_system in Hm. now destruct (is_system m).
Qed.

Lemma truncation_one_system (l : list JSON) :
  (length (List.filter is_system (truncation l)) <= 1)%nat.
Proof.
  unfold truncation. destruct (List.find is_system l) as [m|]; simpl.
  - rewrite slice_last_no_system. destruct (is_system m); simpl; lia.
  - rewrite slice_last_no_system. simpl. lia.
Qed.

(** C1: for every message list (no element is [null]), the truncation
    returns a list of at most 13 messages: the last 12 non-system messages
    (all of them when there are fewer) and at most one system message; if
    the input has a message with role "system", the output starts with a
    system message of the input; and the retained non-system messages are a
    suffix of the input's non-system messages, hence a subsequence of the
    input in the input's order. *)
Theorem truncator_bound_system_first_order (messages : list JSON) :
  Forall (fun m => m <> JNull) messages ->
  exists out,
    Chat.optimizedMessages messages = Normal out /\
    (length out <= 13)%nat /\
    length (List.filter non_system out) =
      Nat.min 12 (length (List.filter non_system messages)) /\
    (length (List.filter is_system out) <= 1)%nat /\
    ((exists m, In m messages /\ is_system m = true) ->
     exists s rest,
       out = s :: rest /\ is_system s = true /\ In s messages) /\
    (exists dropped,
       List.filter non_system messages =
         (dropped ++ List.filter non_system out)%list) /\
    Subsequence (List.filter non_system out) messages.
Proof.
  intros Hnull. exists (truncation messages).
  split; [now apply optimizedMessages_truncation|].
  pose proof (truncation_non_system messages) as Hkeep.
  pose proof (slice_last_length 12 (List.filter non_system messages)) as Hlen.
  split; [| split; [| split; [| split; [| split]]]].
  - unfold truncation. destruct (List.find is_system messages); simpl; lia.
  - rewrite Hkeep. apply slice_last_length_min.
  - apply truncation_one_system.
  - intros [m [Hin Hsys]]. unfold truncation.
    destruct (List.find is_system messages) as [s|] eqn:Hfind.
    + apply find_some in Hfind. destruct Hfind as [Hs1 Hs2].
      exists s. eexists. repeat split; assumption.
    + apply (find_none _ _ Hfind) in Hin. congruence.
  - rewrite Hkeep. apply slice_last_suffix.
  - rewrite Hkeep.
    destruct (slice_last_suffix 12 (List.filter non_system messages))
      as [d Hd].
    apply Subsequence_trans with (b := List.filter non_system messages).
    + rewrite Hd at 2. apply Subsequence_app_skip, Subsequence_refl.
    + apply Subsequence_filter.
Qed.

Lemma truncator_bound_system_first_order_witness :
  exists out,
    Chat.optimizedMessages long_history = Normal out /\
    (length out <= 13)%nat /\
    length (List.filter non_system out) =
      Nat.min 12 (length (List.filter non_system long_history)) /\
    (length (List.filter is_system out) <= 1)%nat /\
    ((exists m, In m long_history /\ is_system m = true) ->
     exists s rest,
       out = s :: rest /\ is_system s = true /\ In s long_history) /\
    (exists dropped,
       List.filter non_system long_history =
         (dropped ++ List.filter non_system out)%list) /\
    Subsequence (List.filter non_system out) long_history.
Proof.
  apply (truncator_bound_system_first_order long_history).
  unfold long_history. simpl. repeat constructor; discriminate.
Defined.

(** C10: the system message the truncation keeps is the first one of the
    list, wherever it stands; it is moved to the front, every other system
    message is dropped, and the twelve-message budget is spent on
    non-system messages only. *)
Theorem truncator_first_system_anywhere (before after : list JSON)
  (s : JSON) :
  Forall (fun m => m <> JNull) (before ++ s :: after)%list ->
  Forall (fun m => is_system m = false) before ->
  is_system s = true ->
  exists kept,
    Chat.optimizedMessages (before ++ s :: after)%list = Normal (s :: kept) /\
    kept = Array.slice_last 12 (List.filter non_system (before ++ after)%list) /\
    Forall (fun m => is_system m = false) kept /\
    List.filter is_system (s :: kept) = [s] /\
    length (s :: kept) =
      S (Nat.min 12 (length (List.filter non_system (before ++ after)%list))).
Proof.
  intros Hnull Hbefore Hs.
  assert (Hfind : List.find is_system (before ++ s :: after)%list = Some s).
  { clear Hnull. induction Hbefore as [| m l Hm _ IH]; simpl.
    - now rewrite Hs.
    - now rewrite Hm. }
  assert (Hfilter : List.filter non_system (before ++ s :: after)%list =
                    List.filter non_system (before ++ after)%list).
  { rewrite !filter_app. simpl. unfold non_system at 2. now rewrite Hs. }
  assert (Hkept : Forall (fun m => is_system m = false)
            (Array.slice_last 12
               (List.filter non_system (before ++ after)%list))).
  { eapply Forall_impl; [| apply slice_last_non_system].
    intros m Hm. unfold non_system in Hm.
    now destruct (is_system m). }
  eexists. split; [| split; [reflexivity | split; [exact Hkept | split]]].
  - rewrite (optimizedMessages_truncation _ Hnull). unfold truncation.
    now rewrite Hfind, Hfilter.
  - simpl. rewrite Hs. f_equal.
    induction Hkept as [| m l Hm _ IH]; simpl; [reflexivity|].
    now rewrite Hm.
  - simpl. now rewrite slice_last_length_min.
Qed.

Lemma truncator_first_system_anywhere_witness :
  exists kept,
    Chat.optimizedMessages long_history =
      Normal (message "system" "persona" :: kept) /\
    kept = map (fun n => message "user" (Number_toString (Z.of_nat n)))
             (seq 3 12) /\
    Forall (fun m => is_system m = false) kept /\
    List.filter is_system (message "system" "persona" :: kept) =
      [message "system" "persona"] /\
    length (message "system" "persona" :: kept) = 13%nat.
Proof.
  apply (truncator_first_system_anywhere
           [message "user" "hello"]
           (map (fun n => message "user" (Number_toString (Z.of_nat n)))
              (seq 1 14) ++ [message "system" "late persona"])%list
           (message "system" "persona")).
  - simpl. repeat constructor; discriminate.
  - repeat constructor.
  - reflexivity.
Defined.

(** C7: with the upstream key configured, a chat request whose [messages]
    is absent or is not an array is answered with status 400 and the error
    "Invalid messages format", and no request is sent upstream, whatever
    the provider would answer. *)
Theorem chat_rejects_invalid_messages
  (upstream : Upstream.Request -> option Upstream.Response)
  (key : option string) (body : Chat.Body) :
  configured key ->
  (Chat.messages body = None \/
   exists v, Chat.messages body = Some v /\ isArray v = false) ->
  run upstream (Chat.chat key body) =
    ([], Some (Chat.ErrorJson 400 (JStr "Invalid messages format"))).
Proof.
  intros [k [-> Hk]] Hmessages. unfold Chat.chat.
  apply String.eqb_neq in Hk. rewrite Hk. simpl.
  destruct Hmessages as [-> | [v [-> Hv]]]; [reflexivity|].
  rewrite Hv, orb_true_r. reflexivity.
Qed.

Lemma chat_rejects_invalid_messages_witness :
  run (fun _ => None)
    (Chat.chat (Some "sk-test")
       {| Chat.messages := Some (JStr "hello"); Chat.temperature := None;
          Chat.maxTokens := None; Chat.stream := None |}) =
    ([], Some (Chat.ErrorJson 400 (JStr "Invalid messages format"))).
Proof.
  apply chat_rejects_invalid_messages.
  - exists "sk-test". split; [reflexivity | discriminate].
  - right. exists (JStr "hello"). split; reflexivity.
Defined.

(** With the key configured and an array of messages without [null], the
    handler does call the provider, once, with the truncated messages and
    the defaults of the absent properties. *)
Lemma chat_valid_messages_calls_upstream
  (upstream : Upstream.Request -> option Upstream.Response)
  (key : option string) (l : list JSON) :
  configured key ->
  Forall (fun m => m <> JNull) l ->
  fst (run upstream
         (Chat.chat key
            {| Chat.messages := Some (JArr l); Chat.temperature := None;
               Chat.maxTokens := None; Chat.stream := None |})) =
    [ {| Upstream.model := "gpt-4o-mini";
         Upstream.messages := truncation l;
         Upstream.temperature := JNum 0.8;
         Upstream.max_tokens := JNum 300;
         Upstream.stream := JBool true |} ].
Proof.
  intros [k [-> Hk]] Hnull. unfold Chat.chat.
  apply String.eqb_neq in Hk. rewrite Hk. simpl.
  rewrite (optimizedMessages_truncation l Hnull). reflexivity.
Qed.

(* ===================================================================== *)
(** * Properties of the program generator *)
(* ===================================================================== *)

(** The workout the loop pushes for [day]. *)
Lemma loop_body_push (o : Program.Onboarding) (e d b : bool) (t : Z)
  (acc : list Workout.t) (day : Z) :
  Program.loop_body o e d b t acc day =
    (acc ++ [workout_of_day o e d b t day])%list.
Proof.
  unfold Program.loop_body, workout_of_day.
  destruct (Z.rem day 7 =? 0); reflexivity.
Qed.

(** The loop invariant: after the days [days], the accumulator has grown by
    their workouts, in order. *)
Lemma loop_invariant (o : Program.Onboarding) (e d b : bool) (t : Z)
  (days : list Z) (acc : list Workout.t) :
  fold_left (Program.loop_body o e d b t) days acc =
    (acc ++ map (workout_of_day o e d b t) days)%list.
Proof.
  revert acc. induction days as [| day days IH]; intros acc; simpl.
  - now rewrite app_nil_r.
  - rewrite IH, loop_body_push, <- app_assoc. reflexivity.
Qed.

Lemma workouts_map (o : Program.Onboarding) :
  Program.workouts o = map (program_day o) Program.loop_days.
Proof. unfold Program.workouts. now rewrite loop_invariant. Qed.

Lemma workout_of_day_day (o : Program.Onboarding) (e d b : bool) (t : Z)
  (day : Z) :
  Workout.day (workout_of_day o e d b t day) = day.
Proof.
  unfold workout_of_day, Program.generateWorkoutForDay.
  destruct (Z.rem day 7 =? 0); [reflexivity|].
  repeat match goal with
         | |- context [if ?c then _ else _] => destruct c
         end; reflexivity.
Qed.

Lemma loop_days_range (day : Z) :
  In day Program.loop_days <-> 1 <= day <= 30.
Proof.
  unfold Program.loop_days. rewrite in_map_iff. split.
  - intros [n [<- Hn]]. apply in_seq in Hn. lia.
  - intros H. exists (Z.to_nat day). split; [lia|]. apply in_seq. lia.
Qed.

(** C2: for every onboarding input the generator answers with exactly 30
    workouts, whose [day] fields are 1, 2, ..., 30 in this order; every
    workout whose day is a multiple of 7 is an Active Recovery workout of
    15 minutes with exactly one exercise. *)
Theorem program_has_thirty_days (o : Program.Onboarding) :
  exists workouts,
    Program.generate_program (Some o) = Ok workouts /\
    length workouts = 30%nat /\
    map Workout.day workouts = map Z.of_nat (seq 1 30) /\
    forall w, In w workouts -> Z.rem (Workout.day w) 7 = 0 ->
      Workout.type w = "Active Recovery" /\
      length (Workout.exercises w) = 1%nat /\
      Workout.duration w = 15.
Proof.
  exists (Program.workouts o). split; [reflexivity|].
  rewrite workouts_map. split; [| split].
  - now rewrite length_map.
  - rewrite map_map. unfold program_day.
    erewrite map_ext; [apply map_id|].
    intros day. apply workout_of_day_day.
  - intros w Hin Hday.
    apply in_map_iff in Hin. destruct Hin as [day [<- _]].
    unfold program_day in *. rewrite workout_of_day_day in Hday.
    unfold workout_of_day. apply Z.eqb_eq in Hday. rewrite Hday.
    repeat split.
Qed.

Lemma ceil_div_week (day week : Z) :
  7 * (week - 1) < day <= 7 * week -> Math.ceil_div day 7 = week.
Proof.
  intros H. unfold Math.ceil_div.
  assert (Hq : - day / 7 = - week).
  { symmetry. apply (Z.div_unique (- day) 7 (- week) (7 * week - day)); lia. }
  lia.
Qed.

Lemma program_day_day (o : Program.Onboarding) (day : Z) :
  Workout.day (program_day o day) = day.
Proof. apply workout_of_day_day. Qed.

Lemma in_workouts_day (o : Program.Onboarding) (w : Workout.t) :
  In w (Program.workouts o) ->
  w = program_day o (Workout.day w) /\ 1 <= Workout.day w <= 30.
Proof.
  rewrite workouts_map, in_map_iff. intros [day [<- Hday]].
  rewrite program_day_day.
  split; [reflexivity | now apply loop_days_range].
Qed.

(** The sets of the first three exercises of the upper-body and lower-body
    lists, whatever the equipment. *)
Lemma upper_primary_sets (e d b : bool) (week : Z) :
  map Exercise.sets (firstn 3 (Program.getUpperBodyExercises e d b week)) =
    let s := Z.min (3 + week / 2) 5 in [s; s; s].
Proof. destruct b, d; reflexivity. Qed.

Lemma lower_primary_sets (e d b : bool) (week : Z) :
  map Exercise.sets (firstn 3 (Program.getLowerBodyExercises e d b week)) =
    let s := Z.min (3 + week / 2) 5 in [s; s; s].
Proof. destruct b, d; reflexivity. Qed.

(** C4: on a day 1..30 that is not a rest day, in week [week] (the
    [week]-th block of seven days, [ceil (day / 7)]), the workout of the
    day is an Upper Body workout when [day mod 7] is 1 or 4 and a Lower
    Body workout when it is 2 or 5, and the first three (primary)
    exercises of such a workout have [min (3 + floor (week / 2)) 5] sets:
    3, 4, 4, 5, 5 in weeks 1 to 5. *)
Theorem primary_sets_progression (o : Program.Onboarding) (day week : Z) :
  1 <= day <= 30 ->
  Z.rem day 7 <> 0 ->
  7 * (week - 1) < day <= 7 * week ->
  let s := Z.min (3 + week / 2) 5 in
  (exists w, In w (Program.workouts o) /\ Workout.day w = day) /\
  (forall w, In w (Program.workouts o) -> Workout.day w = day ->
     (Z.rem day 7 = 1 \/ Z.rem day 7 = 4 ->
      Workout.type w = "Upper Body") /\
     (Z.rem day 7 = 2 \/ Z.rem day 7 = 5 ->
      Workout.type w = "Lower Body") /\
     (Workout.type w = "Upper Body" \/ Workout.type w = "Lower Body" ->
      map Exercise.sets (firstn 3 (Workout.exercises w)) = [s; s; s])) /\
  (week = 1 -> s = 3) /\
  (week = 2 -> s = 4) /\
  (week = 3 -> s = 4) /\
  (week = 4 -> s = 5) /\
  (week = 5 -> s = 5).
Proof.
  intros Hrange Hrest Hweek s. split; [| split].
  - exists (program_day o day). split.
    + rewrite workouts_map. apply in_map. now apply loop_days_range.
    + apply workout_of_day_day.
  - intros w Hin Hday.
    apply in_workouts_day in Hin. destruct Hin as [Hw _].
    rewrite Hday in Hw. subst w.
    unfold program_day, workout_of_day.
    apply Z.eqb_neq in Hrest. rewrite Hrest.
    unfold Program.generateWorkoutForDay.
    rewrite (ceil_div_week day week Hweek).
    destruct (Z.eqb_spec (Z.rem day 7) 1) as [H1 | H1];
      [| destruct (Z.eqb_spec (Z.rem day 7) 4) as [H4 | H4]];
      simpl orb; cbv iota.
    1, 2: (repeat split; intros; try lia;
           unfold Workout.exercises; apply upper_primary_sets).
    destruct (Z.eqb_spec (Z.rem day 7) 2) as [H2 | H2];
      [| destruct (Z.eqb_spec (Z.rem day 7) 5) as [H5 | H5]];
      simpl orb; cbv iota.
    1, 2: (repeat split; intros; try lia;
           unfold Workout.exercises; apply lower_primary_sets).
    destruct ((Z.rem day 7 =? 3) || (Z.rem day 7 =? 6));
      (repeat split; intros; try lia);
      match goal with
      | H : _ \/ _ |- _ => destruct H; discriminate
      end.
  - subst s. repeat split; intros ->; reflexivity.
Qed.

Lemma primary_sets_progression_witness :
  let s := Z.min (3 + 2 / 2) 5 in
  (exists w,
     In w (Program.workouts barbell_and_dumbbells) /\ Workout.day w = 8) /\
  (forall w, In w (Program.workouts barbell_and_dumbbells) ->
     Workout.day w = 8 ->
     (Z.rem 8 7 = 1 \/ Z.rem 8 7 = 4 -> Workout.type w = "Upper Body") /\
     (Z.rem 8 7 = 2 \/ Z.rem 8 7 = 5 -> Workout.type w = "Lower Body") /\
     (Workout.type w = "Upper Body" \/ Workout.type w = "Lower Body" ->
      map Exercise.sets (firstn 3 (Workout.exercises w)) = [s; s; s])) /\
  (2 = 1 -> s = 3) /\
  (2 = 2 -> s = 4) /\
  (2 = 3 -> s = 4) /\
  (2 = 4 -> s = 5) /\
  (2 = 5 -> s = 5).
Proof.
  apply (primary_sets_progression barbell_and_dumbbells 8 2).
  - lia.
  - discriminate.
  - lia.
Defined.

Lemma includes_In (l : list string) (s : string) :
  In s l -> Program.includes l s = true.
Proof.
  intros H. unfold Program.includes. apply existsb_exists.
  exists s. split; [assumption | apply String.eqb_refl].
Qed.

(** With a barbell, the upper-body and lower-body lists do not depend on
    the other two flags. *)
Lemma upper_barbell (e d : bool) (week : Z) :
  Program.getUpperBodyExercises e d true week =
    Program.getUpperBodyExercises false false true week /\
  map Exercise.name (Program.getUpperBodyExercises e d true week) =
    barbell_upper_names.
Proof. split; reflexivity. Qed.

Lemma lower_barbell (e d : bool) (week : Z) :
  Program.getLowerBodyExercises e d true week =
    Program.getLowerBodyExercises false false true week /\
  map Exercise.name (Program.getLowerBodyExercises e d true week) =
    barbell_lower_names.
Proof. split; reflexivity. Qed.

(** The shape of a day's workout when the equipment has a barbell. *)
Lemma barbell_day (e d : bool) (o : Program.Onboarding) (t day : Z) :
  let w := workout_of_day o e d true t day in
  (is_upper_or_lower w = true ->
   Workout.exercises w =
     Workout.exercises (workout_of_day o false false true t day)) /\
  is_upper_or_lower w =
    is_upper_or_lower (workout_of_day o false false true t day) /\
  (Workout.type w = "Upper Body" ->
   map Exercise.name (Workout.exercises w) = barbell_upper_names) /\
  (Workout.type w = "Lower Body" ->
   map Exercise.name (Workout.exercises w) = barbell_lower_names).
Proof.
  unfold workout_of_day, Program.generateWorkoutForDay.
  destruct (Z.rem day 7 =? 0).
  - repeat split; discriminate.
  - destruct ((Z.rem day 7 =? 1) || (Z.rem day 7 =? 4)).
    { repeat split; try discriminate; intros _; reflexivity. }
    destruct ((Z.rem day 7 =? 2) || (Z.rem day 7 =? 5)).
    { repeat split; try discriminate; intros _; reflexivity. }
    destruct ((Z.rem day 7 =? 3) || (Z.rem day 7 =? 6));
      repeat split; discriminate.
Qed.

Lemma upper_lower_exercises_barbell (e d : bool) (o o' : Program.Onboarding)
  (t : Z) (days : list Z) :
  upper_lower_exercises (map (workout_of_day o e d true t) days) =
    upper_lower_exercises (map (workout_of_day o' false false true t) days).
Proof.
  unfold upper_lower_exercises.
  induction days as [| day days IH]; simpl; [reflexivity|].
  destruct (barbell_day e d o t day) as [Hex [Htype _]].
  cbv zeta in Hex, Htype.
  replace (workout_of_day o' false false true t day)
    with (workout_of_day o false false true t day) by reflexivity.
  rewrite Htype.
  destruct (is_upper_or_lower (workout_of_day o false false true t day))
    eqn:Hul; [| exact IH].
  simpl. rewrite Htype in Hex. rewrite (Hex eq_refl), IH.
  now rewrite !workout_of_day_day.
Qed.

(** C8: when the equipment contains "Barbell", the exercise names of every
    Upper Body and Lower Body workout of the program are those of the
    barbell lists; and the Upper Body and Lower Body exercise lists of the
    program are the same for any two equipment lists that contain
    "Barbell", in particular when "Dumbbells" is added to the equipment or
    removed from it. *)
Theorem barbell_takes_precedence (equipment : list string) (t : Z) :
  In "Barbell" equipment ->
  (forall w, In w (Program.workouts (onboarding_with equipment t)) ->
     (Workout.type w = "Upper Body" ->
      map Exercise.name (Workout.exercises w) = barbell_upper_names) /\
     (Workout.type w = "Lower Body" ->
      map Exercise.name (Workout.exercises w) = barbell_lower_names)) /\
  (forall equipment', In "Barbell" equipment' ->
     upper_lower_exercises (Program.workouts (onboarding_with equipment' t)) =
       upper_lower_exercises (Program.workouts (onboarding_with equipment t))) /\
  upper_lower_exercises
    (Program.workouts (onboarding_with ("Dumbbells" :: equipment) t)) =
    upper_lower_exercises (Program.workouts (onboarding_with equipment t)) /\
  upper_lower_exercises
    (Program.workouts
       (onboarding_with
          (List.filter (fun e => negb (String.eqb e "Dumbbells")) equipment)
          t)) =
    upper_lower_exercises (Program.workouts (onboarding_with equipment t)).
Proof.
  intros Hbar.
  assert (Hany : forall equipment', In "Barbell" equipment' ->
     upper_lower_exercises (Program.workouts (onboarding_with equipment' t)) =
       upper_lower_exercises (Program.workouts (onboarding_with equipment t))).
  { intros equipment' Hbar'. rewrite !workouts_map. unfold program_day.
    simpl Program.equipment. simpl Program.timeAvailability.
    rewrite (includes_In _ _ Hbar), (includes_In _ _ Hbar').
    rewrite (upper_lower_exercises_barbell _ _ _
               (onboarding_with equipment t)).
    symmetry. apply upper_lower_exercises_barbell. }
  split; [| split; [exact Hany | split]].
  - intros w Hin. apply in_workouts_day in Hin. destruct Hin as [-> _].
    unfold program_day. simpl Program.equipment.
    rewrite (includes_In _ _ Hbar).
    match goal with
    | |- context [workout_of_day ?o ?e ?d true ?t' ?day] =>
        destruct (barbell_day e d o t' day) as [_ [_ [Hup Hlow]]]
    end.
    split; assumption.
  - apply Hany. now right.
  - apply Hany. apply filter_In. split; [assumption | reflexivity].
Qed.

Lemma barbell_takes_precedence_witness :
  (forall w, In w (Program.workouts (onboarding_with ["Barbell"] 45)) ->
     (Workout.type w = "Upper Body" ->
      map Exercise.name (Workout.exercises w) = barbell_upper_names) /\
     (Workout.type w = "Lower Body" ->
      map Exercise.name (Workout.exercises w) = barbell_lower_names)) /\
  (forall equipment', In "Barbell" equipment' ->
     upper_lower_exercises (Program.workouts (onboarding_with equipment' 45)) =
       upper_lower_exercises (Program.workouts (onboarding_with ["Barbell"] 45))) /\
  upper_lower_exercises
    (Program.workouts (onboarding_with ["Dumbbells"; "Barbell"] 45)) =
    upper_lower_exercises (Program.workouts (onboarding_with ["Barbell"] 45)) /\
  upper_lower_exercises
    (Program.workouts
       (onboarding_with
          (List.filter (fun e => negb (String.eqb e "Dumbbells")) ["Barbell"])
          45)) =
    upper_lower_exercises (Program.workouts (onboarding_with ["Barbell"] 45)).
Proof.
  apply (barbell_takes_precedence ["Barbell"] 45).
  simpl. left. reflexivity.
Defined.

(* ===================================================================== *)
(** * Order of binary64 values *)
(* ===================================================================== *)

Lemma SFleb_trans (a b c : spec_float) :
  SFleb a b = true -> SFleb b c = true -> SFleb a c = true.
Proof.
  unfold SFleb, SFcompare.
  destruct a as [sa | sa | | sa ma ea], b as [sb | sb | | sb mb eb],
    c as [sc | sc | | sc mc ec]; sf_cases.
Qed.

Lemma SFltb_leb_trans (a b c : spec_float) :
  SFltb a b = true -> SFleb b c = true -> SFltb a c = true.
Proof.
  unfold SFleb, SFltb, SFcompare.
  destruct a as [sa | sa | | sa ma ea], b as [sb | sb | | sb mb eb],
    c as [sc | sc | | sc mc ec]; sf_cases.
Qed.

Lemma SFleb_ltb_trans (a b c : spec_float) :
  SFleb a b = true -> SFltb b c = true -> SFltb a c = true.
Proof.
  unfold SFleb, SFltb, SFcompare.
  destruct a as [sa | sa | | sa ma ea], b as [sb | sb | | sb mb eb],
    c as [sc | sc | | sc mc ec]; sf_cases.
Qed.

Lemma SFltb_not_leb (a b : spec_float) :
  SFltb a b = true -> SFleb b a = false.
Proof.
  unfold SFleb, SFltb, SFcompare.
  destruct a as [sa | sa | | sa ma ea], b as [sb | sb | | sb mb eb]; sf_cases.
Qed.

Lemma SFltb_leb (a b : spec_float) :
  SFltb a b = true -> SFleb a b = true.
Proof.
  unfold SFleb, SFltb. destruct (SFcompare a b) as [[ | | ] |]; congruence.
Qed.

(** A value above or below another one is not [NaN], and differs from it. *)
Lemma SFltb_comparable (a b : spec_float) :
  SFltb a b = true \/ SFltb b a = true ->
  SFeqb a a = true /\ SFeqb a b = false.
Proof.
  unfold SFeqb, SFltb, SFcompare.
  destruct a as [sa | sa | | sa ma ea], b as [sb | sb | | sb mb eb];
    intros [H | H]; split; revert H; sf_cases.
Qed.

Lemma float_leb_trans (a b c : float) :
  (a <=? b)%float = true -> (b <=? c)%float = true ->
  (a <=? c)%float = true.
Proof. rewrite !leb_spec. apply SFleb_trans. Qed.

Lemma float_ltb_leb_trans (a b c : float) :
  (a <? b)%float = true -> (b <=? c)%float = true -> (a <? c)%float = true.
Proof. rewrite !leb_spec, !ltb_spec. apply SFltb_leb_trans. Qed.

Lemma float_leb_ltb_trans (a b c : float) :
  (a <=? b)%float = true -> (b <? c)%float = true -> (a <? c)%float = true.
Proof. rewrite !leb_spec, !ltb_spec. apply SFleb_ltb_trans. Qed.

Lemma float_ltb_not_leb (a b : float) :
  (a <? b)%float = true -> (b <=? a)%float = false.
Proof. rewrite !leb_spec, !ltb_spec. apply SFltb_not_leb. Qed.

Lemma float_ltb_leb (a b : float) :
  (a <? b)%float = true -> (a <=? b)%float = true.
Proof. rewrite !leb_spec, !ltb_spec. apply SFltb_leb. Qed.

(** A number below another one is not [NaN]. *)
Lemma float_ltb_not_nan (n c : float) :
  (n <? c)%float = true -> PrimFloat.is_nan n = false.
Proof.
  intros H. unfold PrimFloat.is_nan. rewrite eqb_spec.
  rewrite ltb_spec in H.
  destruct (SFltb_comparable (Prim2SF n) (Prim2SF c)) as [-> _];
    [now left | reflexivity].
Qed.

(** A positive number is truthy. *)
Lemma positive_truthy (n : float) :
  (0 <? n)%float = true -> truthy_number n = true.
Proof.
  intros H. unfold truthy_number, PrimFloat.is_nan, PrimFloat.is_zero.
  change PrimFloat.zero with 0%float.
  rewrite !eqb_spec. rewrite ltb_spec in H.
  destruct (SFltb_comparable (Prim2SF n) (Prim2SF 0)) as [-> ->];
    [now right | reflexivity].
Qed.

(** So is a number that is below another one and is not zero. *)
Lemma nonzero_truthy (n c : float) :
  (n <? c)%float = true -> (n =? 0)%float = false -> truthy_number n = true.
Proof.
  intros Hlt Hzero. unfold truthy_number, PrimFloat.is_zero.
  rewrite (float_ltb_not_nan n c Hlt).
  change PrimFloat.zero with 0%float. now rewrite Hzero.
Qed.

(* ===================================================================== *)
(** * Properties of the persona synthesizer *)
(* ===================================================================== *)

Section Persona_properties.

Variable StringToNumber : string -> float.
Variable ToPrimitive : JSON -> string.

#[local] Abbreviation Number :=
  (Persona.Number StringToNumber ToPrimitive).
#[local] Abbreviation coachingStyleOf :=
  (Persona.coachingStyleOf StringToNumber ToPrimitive).
#[local] Abbreviation styleLabel :=
  (Persona.styleLabel StringToNumber ToPrimitive).

Lemma falsy_is_balanced (o : Persona.OnboardingData) :
  truthy_number (Number (Persona.coachingStyle o)) = false ->
  coachingStyleOf o = 5%float /\ styleLabel o = "balanced".
Proof.
  intros H. unfold Persona.styleLabel, Persona.coachingStyleOf.
  rewrite H. split; reflexivity.
Qed.

Lemma truthy_band (o : Persona.OnboardingData) :
  truthy_number (Number (Persona.coachingStyle o)) = true ->
  styleLabel o = fst (Persona.styleBand (Number (Persona.coachingStyle o))).
Proof.
  intros H. unfold Persona.styleLabel, Persona.coachingStyleOf.
  now rewrite H.
Qed.

Lemma above_is_truthy (c n : float) :
  (0 <? c)%float = true -> (c <=? n)%float = true -> truthy_number n = true.
Proof.
  intros Hc Hn. apply positive_truthy. exact (float_ltb_leb_trans 0 c n Hc Hn).
Qed.

(** No number is at least [hi] and at most [lo] when [lo < hi]. *)
Lemma not_between (lo hi n : float) :
  (lo <? hi)%float = true -> (hi <=? n)%float = true ->
  (n <=? lo)%float = false.
Proof.
  intros Hlt Hhi. destruct (n <=? lo)%float eqn:Hlo; [| reflexivity].
  pose proof (float_leb_trans hi n lo Hhi Hlo) as H.
  now rewrite (float_ltb_not_leb lo hi Hlt) in H.
Qed.

Lemma not_above (lo hi n : float) :
  (lo <? hi)%float = true -> (n <? lo)%float = true ->
  (hi <=? n)%float = false.
Proof.
  intros Hlt Hlo. destruct (hi <=? n)%float eqn:Hhi; [| reflexivity].
  pose proof (float_leb_ltb_trans hi n lo Hhi Hlo) as H.
  pose proof (float_ltb_not_leb lo hi Hlt) as H'.
  now rewrite (float_ltb_leb hi lo H) in H'.
Qed.

Lemma hardtruth_band (n : float) :
  ((1 <=? n) && (n <=? 3))%float = false ->
  ((4 <=? n) && (n <=? 7))%float = false ->
  fst (Persona.styleBand n) = "hardtruth".
Proof. intros H1 H2. unfold Persona.styleBand. now rewrite H1, H2. Qed.

(** C3 (amended): with [n = Number(coachingStyle)], the style label is
    "gentle" when [1 <= n <= 3] and "balanced" when [4 <= n <= 7]; it is
    "hardtruth" for every other truthy [n]: from 8 on (so on [8,10], and
    for 11), below 1 when not zero (so for negative values), and strictly
    between 3 and 4 or between 7 and 8.  When [n] is falsy, that is [NaN]
    or zero (an absent or non-numeric coaching style, but also 0), the
    coaching style defaults to 5 and the label is "balanced". *)
Theorem style_band_thresholds (o : Persona.OnboardingData) :
  let n := Number (Persona.coachingStyle o) in
  ((1 <=? n)%float = true -> (n <=? 3)%float = true ->
   styleLabel o = "gentle") /\
  ((4 <=? n)%float = true -> (n <=? 7)%float = true ->
   styleLabel o = "balanced") /\
  ((8 <=? n)%float = true -> styleLabel o = "hardtruth") /\
  ((n <? 1)%float = true -> (n =? 0)%float = false ->
   styleLabel o = "hardtruth") /\
  ((3 <? n)%float = true -> (n <? 4)%float = true ->
   styleLabel o = "hardtruth") /\
  ((7 <? n)%float = true -> (n <? 8)%float = true ->
   styleLabel o = "hardtruth") /\
  (PrimFloat.is_nan n = true \/ (n =? 0)%float = true ->
   coachingStyleOf o = 5%float /\ styleLabel o = "balanced") /\
  (Persona.coachingStyle o = None ->
   coachingStyleOf o = 5%float /\ styleLabel o = "balanced").
Proof.
  intros n. repeat split.
  - intros Hlo Hhi.
    rewrite truthy_band by (now apply (above_is_truthy 1)).
    fold n. unfold Persona.styleBand. now rewrite Hlo, Hhi.
  - intros Hlo Hhi.
    rewrite truthy_band by (now apply (above_is_truthy 4)).
    fold n. unfold Persona.styleBand.
    rewrite (not_between 3 4 n eq_refl Hlo), andb_false_r.
    now rewrite Hlo, Hhi.
  - intros Hlo.
    rewrite truthy_band by (now apply (above_is_truthy 8)).
    fold n. apply hardtruth_band.
    + now rewrite (not_between 3 8 n eq_refl Hlo), andb_false_r.
    + now rewrite (not_between 7 8 n eq_refl Hlo), andb_false_r.
  - intros Hhi Hzero.
    rewrite truthy_band by (now apply (nonzero_truthy n 1)).
    fold n. apply hardtruth_band.
    + now rewrite (float_ltb_not_leb n 1 Hhi).
    + now rewrite (not_above 1 4 n eq_refl Hhi).
  - intros Hlo Hhi.
    rewrite truthy_band
      by (apply (above_is_truthy 3); [reflexivity | now apply float_ltb_leb]).
    fold n. apply hardtruth_band.
    + now rewrite (float_ltb_not_leb 3 n Hlo), andb_false_r.
    + now rewrite (float_ltb_not_leb n 4 Hhi).
  - intros Hlo Hhi.
    rewrite truthy_band
      by (apply (above_is_truthy 7); [reflexivity | now apply float_ltb_leb]).
    fold n. apply hardtruth_band.
    + rewrite (not_between 3 7 n eq_refl (float_ltb_leb 7 n Hlo)).
      now rewrite andb_false_r.
    + now rewrite (float_ltb_not_leb 7 n Hlo), andb_false_r.
  - apply falsy_is_balanced. fold n. unfold truthy_number, PrimFloat.is_zero.
    change PrimFloat.zero with 0%float.
    destruct H as [-> | ->]; [reflexivity | now rewrite orb_true_r].
  - apply falsy_is_balanced. fold n. unfold truthy_number, PrimFloat.is_zero.
    change PrimFloat.zero with 0%float.
    destruct H as [-> | ->]; [reflexivity | now rewrite orb_true_r].
  - apply falsy_is_balanced. now rewrite H.
  - apply falsy_is_balanced. now rewrite H.
Qed.

(** [Number] turns [true] into 1, [null], [false] and an absent property
    into a falsy number: the first is labelled "gentle", the others take
    the default. *)
Lemma boolean_and_null_styles :
  styleLabel (with_coachingStyle (Some (JBool true))) = "gentle" /\
  styleLabel (with_coachingStyle (Some (JBool false))) = "balanced" /\
  styleLabel (with_coachingStyle (Some JNull)) = "balanced" /\
  styleLabel (with_coachingStyle None) = "balanced".
Proof. repeat split. Qed.

(** A string is labelled by the number it denotes. *)
Lemma string_style (s : string) :
  styleLabel (with_coachingStyle (Some (JStr s))) =
    styleLabel (with_coachingStyle (Some (JNum (StringToNumber s)))).
Proof. reflexivity. Qed.

End Persona_properties.

Lemma style_band_thresholds_witness :
  label_of 2 = "gentle" /\
  label_of 5 = "balanced" /\
  label_of 9 = "hardtruth" /\
  label_of 11 = "hardtruth" /\
  label_of (-1) = "hardtruth" /\
  label_of 3.5 = "hardtruth" /\
  label_of 7.5 = "hardtruth" /\
  label_of nan = "balanced" /\
  Persona.styleLabel unused_StringToNumber unused_ToPrimitive
    (with_coachingStyle None) = "balanced".
Proof.
  pose proof (fun x =>
    style_band_thresholds unused_StringToNumber unused_ToPrimitive
      (with_coachingStyle (Some (JNum x)))) as T.
  pose proof
    (style_band_thresholds unused_StringToNumber unused_ToPrimitive
       (with_coachingStyle None)) as A.
  cbv zeta in T, A. unfold label_of.
  split; [apply (proj1 (T 2%float)); reflexivity |].
  split; [apply (proj1 (proj2 (T 5%float))); reflexivity |].
  split; [apply (proj1 (proj2 (proj2 (T 9%float)))); reflexivity |].
  split; [apply (proj1 (proj2 (proj2 (T 11%float)))); reflexivity |].
  split;
    [apply (proj1 (proj2 (proj2 (proj2 (T (-1)%float))))); reflexivity |].
  split;
    [apply (proj1 (proj2 (proj2 (proj2 (proj2 (T 3.5%float))))));
     reflexivity |].
  split;
    [apply (proj1 (proj2 (proj2 (proj2 (proj2 (proj2 (T 7.5%float)))))));
     reflexivity |].
  split;
    [apply (proj1 (proj2 (proj2 (proj2 (proj2 (proj2 (proj2 (T nan))))))));
     left; reflexivity |].
  apply (proj2 (proj2 (proj2 (proj2 (proj2 (proj2 (proj2 A)))))));
    reflexivity.
Defined.

(** A coaching style of 0 is out of the range 1..10, and its label is
    "balanced", not "hardtruth": [Number(0) || 5] is 5. *)
Lemma coaching_style_zero_is_balanced :
  Persona.coachingStyleOf unused_StringToNumber unused_ToPrimitive
    (with_coachingStyle (Some (JNum 0))) = 5%float /\
  label_of 0 = "balanced" /\
  label_of 0 <> "hardtruth".
Proof. repeat split. discriminate. Qed.

(* ===================================================================== *)
(** * Regular expressions: the matcher decides the language *)
(* ===================================================================== *)

Lemma append_empty (s1 s2 : string) :
  (s1 ++ s2)%string = "" -> s1 = "" /\ s2 = "".
Proof. destruct s1; simpl; [tauto | discriminate]. Qed.

Lemma append_empty_r (s : string) : (s ++ "")%string = s.
Proof. induction s; simpl; congruence. Qed.

Lemma append_assoc (a b c : string) :
  ((a ++ b) ++ c)%string = (a ++ (b ++ c))%string.
Proof. induction a; simpl; congruence. Qed.

Lemma Matches_Seq (r1 r2 : RegExp.t) (s : string) :
  Matches (RegExp.Seq r1 r2) s <->
  exists s1 s2, s = (s1 ++ s2)%string /\ Matches r1 s1 /\ Matches r2 s2.
Proof.
  split.
  - intros H. inversion H; subst. eauto.
  - intros [s1 [s2 [-> [H1 H2]]]]. now constructor.
Qed.

Lemma nullable_Matches (r : RegExp.t) :
  RegExp.nullable r = true <-> Matches r "".
Proof.
  induction r as [| | p | r1 IH1 r2 IH2 | r1 IH1 r2 IH2 | r IH]; simpl.
  - split; [discriminate | intros H; inversion H].
  - split; [constructor | reflexivity].
  - split; [discriminate | intros H; inversion H].
  - rewrite andb_true_iff, IH1, IH2. split.
    + intros [H1 H2]. exact (MSeq _ _ "" "" H1 H2).
    + intros H. apply Matches_Seq in H.
      destruct H as [s1 [s2 [E [H1 H2]]]]. symmetry in E.
      apply append_empty in E. destruct E; subst. tauto.
  - rewrite orb_true_iff, IH1, IH2. split.
    + intros [H | H]; [now apply MAltL | now apply MAltR].
    + intros H. inversion H; subst; tauto.
  - split; [constructor | reflexivity].
Qed.

(** A non-empty match of [r*] starts with a non-empty match of [r]. *)
Lemma Matches_Star_cons (r : RegExp.t) (c : ascii) (s : string) :
  Matches (RegExp.Star r) (String c s) ->
  exists s1 s2,
    s = (s1 ++ s2)%string /\ Matches r (String c s1) /\
    Matches (RegExp.Star r) s2.
Proof.
  intros H. remember (RegExp.Star r) as r' eqn:Er.
  remember (String c s) as t eqn:Et.
  induction H as [| | | | | | r0 s1 s2 H1 _ H2 IH2]; try discriminate.
  injection Er as ->.
  destruct s1 as [| c1 s1].
  - simpl in Et. now apply IH2.
  - simpl in Et. injection Et as -> <-.
    exists s1, s2. repeat split; assumption.
Qed.

Lemma deriv_Matches (c : ascii) (r : RegExp.t) (s : string) :
  Matches (RegExp.deriv c r) s <-> Matches r (String c s).
Proof.
  revert s.
  induction r as [| | p | r1 IH1 r2 IH2 | r1 IH1 r2 IH2 | r IH];
    intros s; simpl.
  - split; intros H; inversion H.
  - split; intros H; inversion H.
  - destruct (p c) eqn:Hp; split; intros H; inversion H; subst.
    + now constructor.
    + constructor.
    + congruence.
  - assert (Hseq : Matches (RegExp.Seq (RegExp.deriv c r1) r2) s ->
                   Matches (RegExp.Seq r1 r2) (String c s)).
    { intros H. apply Matches_Seq in H.
      destruct H as [s1 [s2 [-> [H1 H2]]]].
      apply IH1 in H1. exact (MSeq _ _ (String c s1) s2 H1 H2). }
    assert (Hinv : Matches (RegExp.Seq r1 r2) (String c s) ->
                   Matches (RegExp.Seq (RegExp.deriv c r1) r2) s \/
                   (Matches r1 "" /\ Matches (RegExp.deriv c r2) s)).
    { intros H. apply Matches_Seq in H.
      destruct H as [s1 [s2 [E [H1 H2]]]].
      destruct s1 as [| c1 s1]; simpl in E.
      - subst s2. right. split; [assumption | now apply IH2].
      - injection E as <- ->. left.
        constructor; [now apply IH1 | assumption]. }
    destruct (RegExp.nullable r1) eqn:Hn.
    + split.
      * intros H. inversion H; subst; [now apply Hseq |].
        apply nullable_Matches in Hn.
        apply (MSeq _ _ "" (String c s)); [assumption | now apply IH2].
      * intros H. destruct (Hinv H) as [H' | [_ H']];
          [now apply MAltL | now apply MAltR].
    + split; [exact Hseq |].
      intros H. destruct (Hinv H) as [H' | [H' _]]; [assumption |].
      apply nullable_Matches in H'. congruence.
  - split; intros H; inversion H; subst.
    + apply MAltL. now apply IH1.
    + apply MAltR. now apply IH2.
    + apply MAltL. now apply IH1.
    + apply MAltR. now apply IH2.
  - split.
    + intros H. apply Matches_Seq in H.
      destruct H as [s1 [s2 [-> [H1 H2]]]].
      apply IH in H1. exact (MStarS _ (String c s1) s2 H1 H2).
    + intros H. apply Matches_Star_cons in H.
      destruct H as [s1 [s2 [-> [H1 H2]]]].
      constructor; [now apply IH | assumption].
Qed.

(** The matcher decides the language of the expression. *)
Lemma matches_Matches (r : RegExp.t) (s : string) :
  RegExp.matches r s = true <-> Matches r s.
Proof.
  revert r. induction s as [| c s IH]; intros r; simpl.
  - apply nullable_Matches.
  - rewrite IH. apply deriv_Matches.
Qed.

Lemma Matches_Lit (a s : string) : Matches (RegExp.Lit a) s <-> s = a.
Proof.
  revert s. induction a as [| c a IH]; intros s; simpl.
  - split; [intros H; now inversion H | intros ->; constructor].
  - rewrite Matches_Seq. split.
    + intros [s1 [s2 [-> [H1 H2]]]]. apply IH in H2. subst s2.
      inversion H1 as [| p c' Hc | | | | |]; subst.
      apply Ascii.eqb_eq in Hc. now subst.
    + intros ->. exists (String c ""), a. repeat split.
      * constructor. apply Ascii.eqb_refl.
      * now apply IH.
Qed.

Lemma Matches_Star_Class (p : ascii -> bool) (s : string) :
  Matches (RegExp.Star (RegExp.Class p)) s <-> all_chars p s = true.
Proof.
  split.
  - intros H. remember (RegExp.Star (RegExp.Class p)) as r eqn:Er.
    induction H as [| | | | | | r0 s1 s2 H1 _ H2 IH2]; try discriminate.
    + reflexivity.
    + injection Er as ->. inversion H1; subst. simpl.
      rewrite IH2 by reflexivity. now rewrite andb_true_r.
  - induction s as [| c s IH]; simpl; intros H.
    + constructor.
    + apply andb_true_iff in H. destruct H as [Hc Hs].
      apply (MStarS _ (String c "") s); [now constructor | now apply IH].
Qed.

Lemma Matches_Plus_Class (p : ascii -> bool) (s : string) :
  Matches (RegExp.Plus (RegExp.Class p)) s <->
  s <> "" /\ all_chars p s = true.
Proof.
  unfold RegExp.Plus. rewrite Matches_Seq. split.
  - intros [s1 [s2 [-> [H1 H2]]]]. inversion H1; subst.
    apply Matches_Star_Class in H2. simpl. split; [discriminate|].
    now rewrite H2, andb_true_r.
  - intros [Hne H]. destruct s as [| c s]; [congruence|].
    simpl in H. apply andb_true_iff in H. destruct H as [Hc Hs].
    exists (String c ""), s. repeat split.
    + now constructor.
    + now apply Matches_Star_Class.
Qed.

(* ===================================================================== *)
(** * Properties of the allowed origins *)
(* ===================================================================== *)

Lemma all_chars_any (s : string) : all_chars Cors.any s = true.
Proof. induction s; simpl; [reflexivity | assumption]. Qed.

(** The language of the two Replit patterns. *)
Lemma replit_pattern (suffix o : string) :
  Matches
    (RegExp.Seq (RegExp.Lit "https://")
       (RegExp.Seq (RegExp.Plus (RegExp.Class Cors.label_char))
          (RegExp.Lit suffix))) o <->
  exists label,
    label <> "" /\ all_chars Cors.label_char label = true /\
    o = ("https://" ++ label ++ suffix)%string.
Proof.
  rewrite Matches_Seq. split.
  - intros [s1 [s2 [-> [H1 H2]]]]. apply Matches_Lit in H1. subst s1.
    apply Matches_Seq in H2. destruct H2 as [label [s3 [-> [Hl H3]]]].
    apply Matches_Lit in H3. subst s3.
    apply Matches_Plus_Class in Hl. destruct Hl as [Hne Hall].
    exists label. repeat split; assumption.
  - intros [label [Hne [Hall ->]]].
    exists "https://", (label ++ suffix)%string. repeat split.
    + now apply Matches_Lit.
    + apply Matches_Seq. exists label, suffix. repeat split.
      * now apply Matches_Plus_Class.
      * now apply Matches_Lit.
Qed.

(** The language of the Expo pattern. *)
Lemma expo_pattern (o : string) :
  Matches Cors.expo o <->
  exists c rest, Cors.dot c = true /\ o = ("exp://" ++ String c rest)%string.
Proof.
  unfold Cors.expo. rewrite Matches_Seq. split.
  - intros [s1 [s2 [-> [H1 H2]]]]. apply Matches_Lit in H1. subst s1.
    apply Matches_Seq in H2. destruct H2 as [s3 [s4 [-> [H3 _]]]].
    apply Matches_Plus_Class in H3. destruct H3 as [Hne Hall].
    destruct s3 as [| c s3]; [congruence|].
    simpl in Hall. apply andb_true_iff in Hall. destruct Hall as [Hc _].
    exists c, (s3 ++ s4)%string. split; [assumption | reflexivity].
  - intros [c [rest [Hc ->]]].
    exists "exp://", (String c rest). repeat split.
    + now apply Matches_Lit.
    + apply Matches_Seq. exists (String c ""), rest. repeat split.
      * apply Matches_Plus_Class. split; [discriminate|].
        simpl. now rewrite Hc.
      * apply Matches_Star_Class, all_chars_any.
Qed.

(** The entries of [allowedOrigins], as forms of the origin. *)
Lemma isAllowed_forms (o : string) :
  Cors.isAllowed o = true <->
  o = "https://reforge-backend-final.onrender.com" \/
  (exists label,
     label <> "" /\ all_chars Cors.label_char label = true /\
     (o = ("https://" ++ label ++ ".replit.dev")%string \/
      o = ("https://" ++ label ++ ".replit.app")%string)) \/
  (exists c rest,
     Cors.dot c = true /\ o = ("exp://" ++ String c rest)%string).
Proof.
  unfold Cors.isAllowed, Cors.allowedOrigins. cbn [existsb].
  rewrite !orb_true_iff, String.eqb_eq, !matches_Matches.
  unfold Cors.replit_dev, Cors.replit_app.
  rewrite !replit_pattern, expo_pattern. split.
  - intros [H | [[l [H1 [H2 H3]]] | [[l [H1 [H2 H3]]] | [H | H]]]].
    + left. now symmetry.
    + right. left. exists l. tauto.
    + right. left. exists l. tauto.
    + right. right. exact H.
    + discriminate.
  - intros [H | [[l [H1 [H2 [H3 | H3]]]] | H]].
    + left. now symmetry.
    + right. left. exists l. tauto.
    + right. right. left. exists l. tauto.
    + right. right. right. left. exact H.
Qed.

(** X1: the origins the callback lets through are: no origin or an empty one;
    the production origin; [https://<label>.replit.dev] and
    [https://<label>.replit.app] for a non-empty label of lower-case
    letters, digits and hyphens; and [exp://] followed by at least one
    character that is not a line terminator, and then anything.  Every
    other origin is blocked with the error "Not allowed by CORS". *)
Theorem cors_origin_characterised (origin : option string) :
  (Cors.origin origin = Cors.Allow <->
   origin = None \/
   exists o, origin = Some o /\
     (o = "" \/
      o = "https://reforge-backend-final.onrender.com" \/
      (exists label,
         label <> "" /\ all_chars Cors.label_char label = true /\
         (o = ("https://" ++ label ++ ".replit.dev")%string \/
          o = ("https://" ++ label ++ ".replit.app")%string)) \/
      (exists c rest,
         Cors.dot c = true /\ o = ("exp://" ++ String c rest)%string))) /\
  (Cors.origin origin <> Cors.Allow ->
   Cors.origin origin = Cors.Block "Not allowed by CORS").
Proof.
  split.
  - destruct origin as [o|]; simpl; [| split; [now left | reflexivity]].
    pose proof (isAllowed_forms o) as Hallowed.
    destruct (String.eqb_spec o "") as [-> | Hne].
    + split; [| reflexivity]. intros _. right. exists "". tauto.
    + destruct (Cors.isAllowed o) eqn:Ha.
      * split; [| reflexivity]. intros _. right. exists o.
        split; [reflexivity|]. right. now apply Hallowed.
      * split; [discriminate|].
        intros [H | [o' [[= <-] [H | H]]]]; [discriminate | congruence |].
        apply Hallowed in H. discriminate.
  - destruct origin as [o|]; simpl; [| congruence].
    destruct (String.eqb o ""); [congruence|].
    destruct (Cors.isAllowed o); [congruence | reflexivity].
Qed.

(** X2: no origin over plain [http://] is let through, whatever follows the
    scheme. *)
Theorem cors_blocks_plain_http (rest : string) :
  Cors.origin (Some ("http://" ++ rest)%string) =
    Cors.Block "Not allowed by CORS".
Proof.
  unfold Cors.origin. simpl String.eqb.
  destruct (Cors.isAllowed ("http://" ++ rest)) eqn:Ha; [| reflexivity].
  apply isAllowed_forms in Ha. simpl in Ha.
  destruct Ha as [H | [[l [_ [_ [H | H]]]] | [c [r [_ H]]]]];
    simpl in H; discriminate.
Qed.

(* ===================================================================== *)
(** * Properties of the daily prompts and the milestones *)
(* ===================================================================== *)

Lemma days_1_30 (day : Z) :
  1 <= day <= 30 -> In day (map Z.of_nat (seq 1 30)).
Proof.
  intros H. apply in_map_iff. exists (Z.to_nat day).
  split; [lia | apply in_seq; lia].
Qed.

(** Case analysis on a day of the program. *)
Ltac each_day H :=
  apply days_1_30 in H; simpl in H;
  repeat (destruct H as [<- | H]; [| try contradiction]).

(** X3: the daily-prompt handler answers a parameter whose leading integer is
    a day 1..30 with a prompt that begins with "Day <day>: ", from the
    table or generic; every other parameter (no leading integer, or one
    below 1 or above 30) gets status 400. *)
Theorem daily_prompt_outcome (param : string) :
  (exists day text,
     parseInt param = Some day /\ 1 <= day <= 30 /\
     DailyPrompt.daily_prompt param = Ok text /\
     String.prefix ("Day " ++ Number_toString day ++ ": ") text = true) \/
  ((parseInt param = None \/
    exists day, parseInt param = Some day /\ (day < 1 \/ 30 < day)) /\
   DailyPrompt.daily_prompt param = Err 400 "Invalid day number").
Proof.
  unfold DailyPrompt.daily_prompt.
  destruct (parseInt param) as [day|]; [| right; split; [now left | reflexivity]].
  destruct (Z.ltb_spec day 1) as [Hlo | Hlo].
  { right. split; [right; exists day; split; [reflexivity | lia] | reflexivity]. }
  destruct (Z.ltb_spec 30 day) as [Hhi | Hhi].
  { right. split; [right; exists day; split; [reflexivity | lia] | reflexivity]. }
  left. exists day. simpl orb. cbv iota.
  assert (Hday : 1 <= day <= 30) by lia. clear Hlo Hhi.
  eexists. split; [reflexivity | split; [exact Hday | split; [reflexivity|]]].
  each_day Hday; reflexivity.
Qed.

Lemma digit_code (c : ascii) :
  decimal c = true -> (48 <= code c <= 57)%N.
Proof.
  unfold decimal, digit. simpl (10 =? 16).
  destruct ((48 <=? Z.of_N (code c)) && (Z.of_N (code c) <=? 57)) eqn:H;
    [| discriminate].
  intros _. apply andb_true_iff in H. rewrite !Z.leb_le in H. lia.
Qed.

Lemma code_differs (c : ascii) (k : N) :
  (48 <= code c <= 57)%N -> (k < 48 \/ 57 < k)%N -> (code c =? k)%N = false.
Proof. intros H Hk. apply N.eqb_neq. lia. Qed.

(** A string that begins with a decimal digit has no white space to trim. *)
Lemma trimStart_digit (c : ascii) (s : string) :
  decimal c = true -> trimStart (String c s) = String c s.
Proof.
  intros H. apply digit_code in H. simpl.
  assert (H1 : white1 c = false).
  { unfold white1. rewrite (code_differs c 32 H) by lia.
    replace (code c <=? 13)%N with false
      by (symmetry; apply N.leb_gt; lia).
    now rewrite andb_false_r. }
  rewrite H1. destruct s as [| b s]; [reflexivity|].
  assert (H2 : white2 c b = false).
  { unfold white2. now rewrite (code_differs c 194 H) by lia. }
  rewrite H2. destruct s as [| d s]; [reflexivity|].
  assert (H3 : white3 c b d = false).
  { unfold white3.
    rewrite (code_differs c 225 H), (code_differs c 226 H),
      (code_differs c 227 H), (code_differs c 239 H) by lia.
    reflexivity. }
  now rewrite H3.
Qed.

Lemma digit_not_sign (c : ascii) :
  decimal c = true -> Ascii.eqb c "-" = false /\ Ascii.eqb c "+" = false.
Proof.
  intros H. apply digit_code in H.
  split; apply Ascii.eqb_neq; intros ->; vm_compute in H;
    destruct H as [H _]; now apply H.
Qed.

(** Reading digits stops at the first character that is not one. *)
Lemma digits_stops (ds suffix : string) (read : option Z) :
  all_chars decimal ds = true -> stops suffix = true ->
  digits 10 (ds ++ suffix) read = digits 10 ds read.
Proof.
  intros Hds Hstop. revert read.
  induction ds as [| c ds IH]; intros read; simpl.
  - destruct suffix as [| c rest]; [reflexivity|].
    simpl in Hstop. unfold decimal in Hstop. simpl.
    destruct (digit 10 c); [discriminate | reflexivity].
  - simpl in Hds. apply andb_true_iff in Hds. destruct Hds as [Hc Hds].
    destruct (digit 10 c); [| reflexivity]. now apply IH.
Qed.

(** [parseInt] reads the leading decimal digits of its argument and
    ignores what follows them. *)
Lemma parseInt_ignores_suffix (c : ascii) (ds suffix : string) :
  decimal c = true -> c <> "0"%char ->
  all_chars decimal ds = true -> stops suffix = true ->
  parseInt (String c ds ++ suffix) = parseInt (String c ds).
Proof.
  intros Hc Hzero Hds Hstop. unfold parseInt.
  change (String c ds ++ suffix)%string with (String c (ds ++ suffix)).
  rewrite !(trimStart_digit c _ Hc).
  destruct (digit_not_sign c Hc) as [-> ->].
  apply Ascii.eqb_neq in Hzero. 
  assert (Hradix : forall t,
    match String c t with
    | String c0 (String x rest) =>
        if Ascii.eqb c0 "0" && (Ascii.eqb x "x" || Ascii.eqb x "X")
        then (16, rest) else (10, String c t)
    | _ => (10, String c t)
    end = (10, String c t)).
  { intros [| x rest]; [reflexivity|]. now rewrite Hzero. }
  rewrite !Hradix.
  change (String c (ds ++ suffix)) with (String c ds ++ suffix)%string.
  rewrite digits_stops; [reflexivity | | assumption].
  simpl. now rewrite Hc, Hds.
Qed.

(** X4: both handlers look at the leading integer of the route parameter only:
    text after decimal digits that do not begin with 0 changes neither
    answer. *)
Theorem day_parameter_suffix_ignored (c : ascii) (ds suffix : string) :
  decimal c = true -> c <> "0"%char ->
  all_chars decimal ds = true -> stops suffix = true ->
  DailyPrompt.daily_prompt (String c ds ++ suffix) =
    DailyPrompt.daily_prompt (String c ds) /\
  Milestone.milestone (String c ds ++ suffix) =
    Milestone.milestone (String c ds).
Proof.
  intros Hc Hzero Hds Hstop.
  unfold DailyPrompt.daily_prompt, Milestone.milestone.
  now rewrite (parseInt_ignores_suffix c ds suffix Hc Hzero Hds Hstop).
Qed.

Lemma day_parameter_suffix_ignored_witness :
  DailyPrompt.daily_prompt "15th of March" = DailyPrompt.daily_prompt "15" /\
  Milestone.milestone "15th of March" = Milestone.milestone "15".
Proof.
  apply (day_parameter_suffix_ignored "1" "5" "th of March");
    [reflexivity | discriminate | reflexivity | reflexivity].
Defined.

(** The days of the table [milestones]: the multiples of 5 from 5 to 30. *)
Lemma milestones_days (day : Z) :
  Milestone.milestones day <> None <->
  day = 5 \/ day = 10 \/ day = 15 \/ day = 20 \/ day = 25 \/ day = 30.
Proof.
  unfold Milestone.milestones.
  repeat match goal with
         | |- context [?a =? ?b] => destruct (Z.eqb_spec a b)
         end;
    (split; [intros H; try lia; now contradiction H | intros H; try lia; discriminate]).
Qed.

(** X5: the milestone handler answers status 400 when the parameter has no
    leading integer, the milestone when that integer is a multiple of 5
    from 5 to 30, and status 404 for every other integer, also outside
    1..30. *)
Theorem milestone_outcome (param : string) :
  (parseInt param = None /\
   Milestone.milestone param = Err 400 "Invalid day number") \/
  (exists day, parseInt param = Some day /\
     ((5 <= day <= 30 /\ day mod 5 = 0) /\
      (exists m, Milestone.milestone param = Ok m) \/
      ~ (5 <= day <= 30 /\ day mod 5 = 0) /\
      Milestone.milestone param = Err 404 "No milestone for this day")).
Proof.
  unfold Milestone.milestone.
  destruct (parseInt param) as [day|]; [right | left; split; reflexivity].
  exists day. split; [reflexivity|].
  pose proof (milestones_days day) as Hdays.
  destruct (Milestone.milestones day) as [m|].
  - left. split; [| now exists m].
    assert (H : day = 5 \/ day = 10 \/ day = 15 \/ day = 20 \/ day = 25 \/
                day = 30) by (apply Hdays; discriminate).
    destruct H as [-> | [-> | [-> | [-> | [-> | ->]]]]];
      (split; [lia | reflexivity]).
  - right. split; [| reflexivity].
    intros [Hrange Hmod].
    assert (H : day = 5 \/ day = 10 \/ day = 15 \/ day = 20 \/ day = 25 \/
                day = 30).
    { pose proof (Z.div_mod day 5 ltac:(lia)) as Hd. lia. }
    apply Hdays in H. now apply H.
Qed.

(** X6: a parameter that gets a milestone also gets a daily prompt of its own
    from the table, not the generic one. *)
Theorem milestone_days_have_prompts (param : string) (m : Milestone.t) :
  Milestone.milestone param = Ok m ->
  exists day text,
    parseInt param = Some day /\
    DailyPrompt.prompts day = Some text /\
    DailyPrompt.daily_prompt param = Ok text.
Proof.
  unfold Milestone.milestone, DailyPrompt.daily_prompt.
  destruct (parseInt param) as [day|]; [| discriminate].
  intros H. exists day.
  assert (Hday : Milestone.milestones day <> None)
    by (destruct (Milestone.milestones day); [discriminate | discriminate]).
  apply milestones_days in Hday.
  destruct Hday as [-> | [-> | [-> | [-> | [-> | ->]]]]];
    eexists; repeat split; reflexivity.
Qed.

Lemma milestone_days_have_prompts_witness :
  exists day text,
    parseInt "10" = Some day /\
    DailyPrompt.prompts day = Some text /\
    DailyPrompt.daily_prompt "10" = Ok text.
Proof.
  eapply (milestone_days_have_prompts "10"). reflexivity.
Defined.

(* ===================================================================== *)
(** * Further properties of the chat handler *)
(* ===================================================================== *)

Lemma null_or_not (l : list JSON) :
  In JNull l \/ Forall (fun m => m <> JNull) l.
Proof.
  induction l as [| m l [IH | IH]].
  - right. constructor.
  - left. now right.
  - destruct m; try (right; constructor; [discriminate | assumption]).
    left. now left.
Qed.

Lemma filter_throws (l : list JSON) :
  In JNull l -> Array.filter Chat.isNotSystem l = Throws.
Proof.
  induction l as [| m l IH]; simpl; [contradiction|].
  intros [-> | H]; [reflexivity|].
  rewrite (IH H). destruct (Chat.isNotSystem m); reflexivity.
Qed.

(** The truncation throws exactly on the lists with a [null] element, and
    is [truncation] on the others. *)
Lemma optimizedMessages_throws (l : list JSON) :
  Chat.optimizedMessages l = Throws <-> In JNull l.
Proof.
  split.
  - intros H. destruct (null_or_not l) as [Hin | Hnull]; [assumption|].
    rewrite (optimizedMessages_truncation l Hnull) in H. discriminate.
  - intros H. unfold Chat.optimizedMessages.
    destruct (Array.find Chat.isSystem l); simpl; [| reflexivity].
    now rewrite (filter_throws l H).
Qed.

Lemma optimizedMessages_normal (l out : list JSON) :
  Chat.optimizedMessages l = Normal out ->
  Forall (fun m => m <> JNull) l /\ out = truncation l.
Proof.
  intros H. destruct (null_or_not l) as [Hin | Hnull].
  - apply optimizedMessages_throws in Hin. congruence.
  - rewrite (optimizedMessages_truncation l Hnull) in H.
    injection H as <-. now split.
Qed.

Lemma slice_last_all {A : Type} (n : nat) (l : list A) :
  (length l <= n)%nat -> Array.slice_last n l = l.
Proof.
  intros H. unfold Array.slice_last.
  replace (length l - n)%nat with 0%nat by lia. reflexivity.
Qed.

Lemma find_no_system (l : list JSON) :
  Forall (fun m => non_system m = true) l -> List.find is_system l = None.
Proof.
  induction 1 as [| m l Hm _ IH]; simpl; [reflexivity|].
  unfold non_system in Hm. destruct (is_system m); [discriminate | exact IH].
Qed.

Lemma truncation_In (l : list JSON) (m : JSON) :
  In m (truncation l) -> In m l.
Proof.
  assert (Hkept : forall x,
    In x (Array.slice_last 12 (List.filter non_system l)) -> In x l).
  { intros x Hx.
    destruct (slice_last_suffix 12 (List.filter non_system l)) as [d Hd].
    assert (Hin : In x (List.filter non_system l))
      by (rewrite Hd; apply in_or_app; now right).
    apply filter_In in Hin. tauto. }
  unfold truncation.
  destruct (List.find is_system l) as [s|] eqn:Hfind; [| apply Hkept].
  apply find_some in Hfind. intros [<- | H]; [tauto | now apply Hkept].
Qed.

Lemma truncation_twice (l : list JSON) :
  truncation (truncation l) = truncation l.
Proof.
  pose proof (slice_last_non_system l) as Hnon.
  pose proof (slice_last_length 12 (List.filter non_system l)) as Hlen.
  unfold truncation at 2 3.
  destruct (List.find is_system l) as [s|] eqn:Hfind.
  - apply find_some in Hfind. destruct Hfind as [_ Hs].
    unfold truncation. simpl. rewrite Hs. unfold non_system at 1.
    rewrite Hs. simpl.
    rewrite (filter_all _ _ Hnon). now rewrite (slice_last_all 12 _ Hlen).
  - unfold truncation. rewrite (find_no_system _ Hnon).
    rewrite (filter_all _ _ Hnon). now rewrite (slice_last_all 12 _ Hlen).
Qed.

(** X7: truncating an already truncated history changes nothing: the output
    of the truncation is a fixed point of it. *)
Theorem truncation_idempotent (messages out : list JSON) :
  Chat.optimizedMessages messages = Normal out ->
  Chat.optimizedMessages out = Normal out.
Proof.
  intros H. apply optimizedMessages_normal in H. destruct H as [Hnull ->].
  rewrite optimizedMessages_truncation.
  - now rewrite truncation_twice.
  - apply Forall_forall. intros m Hm. apply truncation_In in Hm.
    rewrite Forall_forall in Hnull. now apply Hnull.
Qed.

Lemma truncation_idempotent_witness :
  Chat.optimizedMessages
    (message "system" "persona"
       :: map (fun n => message "user" (Number_toString (Z.of_nat n)))
            (seq 3 12)) =
    Normal
      (message "system" "persona"
         :: map (fun n => message "user" (Number_toString (Z.of_nat n)))
              (seq 3 12)).
Proof.
  apply (truncation_idempotent long_history). reflexivity.
Defined.

(** X8: a history of at most twelve non-system messages, alone or after one
    leading system message, is sent as it is. *)
Theorem short_history_kept (messages turns : list JSON) :
  Forall (fun m => m <> JNull) messages ->
  Forall (fun m => is_system m = false) turns ->
  (length turns <= 12)%nat ->
  (messages = turns \/
   exists s, is_system s = true /\ messages = s :: turns) ->
  Chat.optimizedMessages messages = Normal messages.
Proof.
  intros Hnull Hturns Hlen Hshape.
  rewrite (optimizedMessages_truncation messages Hnull). f_equal.
  assert (Hnon : Forall (fun m => non_system m = true) turns).
  { eapply Forall_impl; [| exact Hturns].
    intros m Hm. unfold non_system. now rewrite Hm. }
  unfold truncation.
  destruct Hshape as [-> | [s [Hs ->]]].
  - rewrite (find_no_system _ Hnon), (filter_all _ _ Hnon).
    now apply slice_last_all.
  - simpl. rewrite Hs. unfold non_system at 1. rewrite Hs. simpl.
    rewrite (filter_all _ _ Hnon). now rewrite slice_last_all.
Qed.

Lemma short_history_kept_witness :
  Chat.optimizedMessages
    [message "system" "persona"; message "user" "hi";
     message "assistant" "hello"] =
    Normal
      [message "system" "persona"; message "user" "hi";
       message "assistant" "hello"].
Proof.
  apply (short_history_kept _ [message "user" "hi";
                               message "assistant" "hello"]).
  - repeat constructor; discriminate.
  - repeat constructor.
  - simpl. lia.
  - right. exists (message "system" "persona"). split; reflexivity.
Defined.

Lemma configured_dec (key : option string) :
  (configured key /\
   match key with
   | Some k => negb (String.eqb k "")
   | None => false
   end = true) \/
  (~ configured key /\
   match key with
   | Some k => negb (String.eqb k "")
   | None => false
   end = false).
Proof.
  destruct key as [k|].
  - destruct (String.eqb_spec k "") as [-> | Hk].
    + right. split; [| reflexivity]. intros [k' [[= <-] H]]. now apply H.
    + left. split; [| reflexivity]. now exists k.
  - right. split; [| reflexivity]. intros [k' [H _]]. discriminate.
Qed.

(** Joining an array converts its elements. *)
Lemma ToString_array (elements : list JSON) :
  ToString (JArr elements) = Throws <->
  exists e, In e elements /\ ToString e = Throws.
Proof.
  induction elements as [| e rest IH].
  - split; [discriminate | intros [e [[] _]]].
  - change (ToString (JArr (e :: rest)))
      with (bind (ToString e) (fun _ => ToString (JArr rest))).
    destruct (ToString e) as [u|] eqn:He; simpl.
    + rewrite IH. split.
      * intros [e' [Hin H]]. exists e'. split; [now right | assumption].
      * intros [e' [[<- | Hin] H]]; [congruence | now exists e'].
    + split; [| reflexivity]. intros _. exists e. split; [now left | assumption].
Qed.

(** The conversion throws exactly on the values without a primitive
    value. *)
Lemma ToString_throws (v : JSON) :
  ToString v = Throws <-> Inconvertible v.
Proof.
  induction v as [| b | x | s | elements IH | properties]
    using JSON_elements_ind;
    try (split; [discriminate | intros H; inversion H]).
  - rewrite ToString_array. rewrite Forall_forall in IH. split.
    + intros [e [Hin H]]. apply (InconvertibleArray elements e Hin).
      now apply IH.
    + intros H. inversion H as [| l e Hin He]; subst.
      exists e. split; [assumption | now apply IH].
  - simpl. destruct (lookup "toString" properties) as [value|] eqn:Hl.
    + split; [| reflexivity]. intros _.
      now apply (InconvertibleObject properties value).
    + split; [discriminate|]. intros H. inversion H; congruence.
Qed.

Lemma convert_throws (v : option JSON) :
  convert v = Throws <-> inconvertible v.
Proof.
  destruct v as [x|]; simpl.
  - rewrite ToString_throws. split.
    + intros H. now exists x.
    + intros [x' [[= <-] H]]. exact H.
  - split; [discriminate | intros [x [H _]]; discriminate].
Qed.

(** The default of an absent property is a number, which converts. *)
Lemma default_throws (v : option JSON) (d : float) :
  ToString (Chat.default v (JNum d)) = Throws <-> inconvertible v.
Proof. rewrite <- convert_throws. destruct v; reflexivity. Qed.

(** The logged line throws when one of its two values has no primitive
    value. *)
Lemma logCost_throws (maxTokens temperature : option JSON) (m t : float) :
  Chat.logCost (Chat.default maxTokens (JNum m))
    (Chat.default temperature (JNum t)) = Throws <->
  inconvertible maxTokens \/ inconvertible temperature.
Proof.
  unfold Chat.logCost.
  rewrite <- (default_throws maxTokens m), <- (default_throws temperature t).
  destruct (ToString (Chat.default maxTokens (JNum m))); simpl.
  - split; [now right | intros [H | H]; [discriminate | assumption]].
  - split; [now left | reflexivity].
Qed.

(** The shape of a run of the chat handler. *)
Lemma chat_run (upstream : Upstream.Request -> option Upstream.Response)
  (key : option string) (body : Chat.Body) :
  (* a reply without an upstream request *)
  (exists r, run upstream (Chat.chat key body) = ([], Some r) /\
     ((~ configured key /\ r = Chat.ErrorJson 500 (JStr "API key not configured")) \/
      (configured key /\
       (forall l, Chat.messages body <> Some (JArr l)) /\
       r = Chat.ErrorJson 400 (JStr "Invalid messages format")))) \/
  (* an exception before the [try]: no request and no reply *)
  (run upstream (Chat.chat key body) = ([], None) /\ configured key /\
   exists l, Chat.messages body = Some (JArr l) /\
     (In JNull l \/ inconvertible (Chat.maxTokens body) \/
      inconvertible (Chat.temperature body))) \/
  (* one upstream request, and a reply *)
  (exists l request,
     configured key /\ Chat.messages body = Some (JArr l) /\
     Forall (fun m => m <> JNull) l /\
     ~ inconvertible (Chat.maxTokens body) /\
     ~ inconvertible (Chat.temperature body) /\
     Upstream.model request = "gpt-4o-mini" /\
     Upstream.messages request = truncation l /\
     run upstream (Chat.chat key body) =
       ([request],
        Some (Chat.relay (Upstream.stream request) (upstream request)))).
Proof.
  unfold Chat.chat.
  destruct (configured_dec key) as [[Hkey ->] | [Hkey ->]]; simpl negb;
    cbv iota.
  2: { left. eexists. split; [reflexivity|]. left. now split. }
  destruct (Chat.messages body) as [v|] eqn:Hv.
  2: { left. eexists. split; [reflexivity|]. right.
       repeat split; [assumption | discriminate]. }
  destruct v as [| b | x | s | l | props];
    try (left; eexists; split;
         [ simpl; try rewrite orb_true_r; reflexivity
         | right; repeat split; [assumption | discriminate] ]).
  simpl.
  destruct (Chat.optimizedMessages l) as [out|] eqn:Hout.
  - apply optimizedMessages_normal in Hout. destruct Hout as [Hnull ->].
    pose proof (logCost_throws (Chat.maxTokens body) (Chat.temperature body)
                  300 0.8) as Hlog.
    destruct (Chat.logCost (Chat.default (Chat.maxTokens body) (JNum 300))
                (Chat.default (Chat.temperature body) (JNum 0.8)))
      as [u|].
    + right. right. exists l.
      exists {| Upstream.model := "gpt-4o-mini";
                Upstream.messages := truncation l;
                Upstream.temperature :=
                  Chat.default (Chat.temperature body) (JNum 0.8);
                Upstream.max_tokens :=
                  Chat.default (Chat.maxTokens body) (JNum 300);
                Upstream.stream :=
                  Chat.default (Chat.stream body) (JBool true) |}.
      assert (Hno : ~ (inconvertible (Chat.maxTokens body) \/
                       inconvertible (Chat.temperature body)))
        by (intros H; apply Hlog in H; discriminate).
      repeat split; try assumption; try reflexivity; tauto.
    + right. left. repeat split; [assumption|]. exists l.
      split; [reflexivity|]. right. now apply Hlog.
  - right. left. apply optimizedMessages_throws in Hout.
    repeat split; [assumption|]. exists l. split; [reflexivity | now left].
Qed.

(** X9: the chat handler sends at most one request upstream, never a second
    one; a request it sends names the model gpt-4o-mini and carries at most
    13 messages, at most one of them a system message. *)
Theorem chat_upstream_request_bounded
  (upstream : Upstream.Request -> option Upstream.Response)
  (key : option string) (body : Chat.Body) (request : Upstream.Request) :
  In request (fst (run upstream (Chat.chat key body))) ->
  fst (run upstream (Chat.chat key body)) = [request] /\
  Upstream.model request = "gpt-4o-mini" /\
  (length (Upstream.messages request) <= 13)%nat /\
  (length (List.filter is_system (Upstream.messages request)) <= 1)%nat.
Proof.
  destruct (chat_run upstream key body)
    as [[r [-> _]] | [[-> _] | [l [q [_ [_ [_ [_ [_ [Hmodel [Hmsg ->]]]]]]]]]]];
    simpl; try contradiction.
  intros [<- | []]. repeat split; try assumption; rewrite Hmsg.
  - unfold truncation. pose proof (slice_last_length 12 (List.filter non_system l)).
    destruct (List.find is_system l); simpl; lia.
  - apply truncation_one_system.
Qed.

Lemma chat_upstream_request_bounded_witness :
  fst (run (fun _ => None) (Chat.chat (Some "sk-test") long_chat)) =
    [long_request] /\
  Upstream.model long_request = "gpt-4o-mini" /\
  (length (Upstream.messages long_request) <= 13)%nat /\
  (length (List.filter is_system (Upstream.messages long_request)) <= 1)%nat.
Proof.
  refine (chat_upstream_request_bounded (fun _ => None) (Some "sk-test")
            long_chat long_request _).
  vm_compute. left. reflexivity.
Defined.

(** X10: against a provider that settles the request, the chat handler
    ends by an exception outside its [try], with no response of its own,
    exactly when the key is configured, [messages] is an array, and either
    the array has a [null] element (reading its [role] throws) or
    [maxTokens] or [temperature] has no primitive value (the logged
    template literal throws); no request has been sent upstream then.  In
    every other case the handler responds. *)
Theorem chat_exception_characterised
  (upstream : Upstream.Request -> option Upstream.Response)
  (key : option string) (body : Chat.Body) :
  (snd (run upstream (Chat.chat key body)) = None <->
   configured key /\
   exists l, Chat.messages body = Some (JArr l) /\
     (In JNull l \/
      (exists v, Chat.maxTokens body = Some v /\ Inconvertible v) \/
      (exists v, Chat.temperature body = Some v /\ Inconvertible v))) /\
  (snd (run upstream (Chat.chat key body)) = None ->
   fst (run upstream (Chat.chat key body)) = []).
Proof.
  destruct (chat_run upstream key body)
    as [[r [-> Hr]] | [[-> H] |
         [l [q [Hkey [Hl [Hnull [Hmax [Htemp [_ [_ ->]]]]]]]]]]];
    simpl.
  - split; [| discriminate].
    split; [discriminate|]. intros [Hkey [l [Hl _]]].
    destruct Hr as [[Hno _] | [_ [Hnot _]]]; [now apply Hno in Hkey|].
    now apply Hnot in Hl.
  - split; [| reflexivity]. split; [intros _; exact H | reflexivity].
  - split; [| discriminate].
    split; [discriminate|]. intros [_ [l' [Hl' [Hin | [Hin | Hin]]]]].
    + rewrite Hl in Hl'. injection Hl' as <-.
      rewrite Forall_forall in Hnull. now apply Hnull in Hin.
    + now apply Hmax in Hin.
    + now apply Htemp in Hin.
Qed.

(** How the relay answers an upstream failure. *)
Lemma relay_failure (stream : JSON) (response : Upstream.Response) :
  Upstream.ok response = false ->
  (Upstream.json response = Some JNull ->
   Chat.relay stream (Some response) =
     Chat.ErrorJson 500 (JStr "Internal server error")) /\
  (Upstream.json response <> Some JNull ->
   exists message,
     Chat.relay stream (Some response) =
       Chat.ErrorJson (Upstream.status response) message /\
     truthy message = true).
Proof.
  intros Hok. unfold Chat.relay. rewrite Hok. simpl negb. cbv iota.
  split.
  - intros ->. reflexivity.
  - intros Hjson.
    assert (Hmessage : forall errorData, errorData <> JNull ->
      exists message,
        Chat.errorMessage errorData = Normal message /\
        truthy message = true).
    { intros errorData Hdata. unfold Chat.errorMessage.
      assert (Hget : exists error, get errorData "error" = Normal error)
        by (destruct errorData; simpl; eauto; congruence).
      destruct Hget as [error ->]. simpl.
      assert (Hmsg : exists message,
        match error with
        | Some JNull => Normal None
        | Some e => get e "message"
        | None => Normal None
        end = Normal message)
        by (destruct error as [[]|]; simpl; eauto).
      destruct Hmsg as [message ->]. simpl.
      destruct message as [m|]; [| eauto].
      destruct (truthy m) eqn:Hm; eauto. }
    destruct (Upstream.json response) as [data|].
    + destruct (Hmessage data) as [message [-> Ht]]; [congruence|].
      now exists message.
    + destruct (Hmessage (JObj [])) as [message [-> Ht]]; [discriminate|].
      now exists message.
Qed.

(** X11: when the provider answers a well-formed chat request (an array of
    messages without [null], and a [maxTokens] and a [temperature] that
    are absent or have a primitive value) with a failure status, the
    handler answers with that same status and a non-empty error, whether
    or not streaming was asked for; the one exception is a failure whose
    body is the JSON value [null], which is answered with status 500. *)
Theorem upstream_failure_status_relayed
  (upstream : Upstream.Request -> option Upstream.Response)
  (key : option string) (body : Chat.Body) (l : list JSON)
  (response : Upstream.Response) :
  configured key ->
  Chat.messages body = Some (JArr l) ->
  Forall (fun m => m <> JNull) l ->
  ~ inconvertible (Chat.maxTokens body) ->
  ~ inconvertible (Chat.temperature body) ->
  (forall request, upstream request = Some response) ->
  Upstream.ok response = false ->
  (Upstream.json response = Some JNull ->
   snd (run upstream (Chat.chat key body)) =
     Some (Chat.ErrorJson 500 (JStr "Internal server error"))) /\
  (Upstream.json response <> Some JNull ->
   exists message,
     snd (run upstream (Chat.chat key body)) =
       Some (Chat.ErrorJson (Upstream.status response) message) /\
     truthy message = true).
Proof.
  intros Hkey Hl Hnull Hmax Htemp Hup Hok.
  destruct (chat_run upstream key body)
    as [[r [_ Hr]] | [[_ [_ H]] | [l' [q [_ [_ [_ [_ [_ [_ [_ ->]]]]]]]]]]].
  - destruct Hr as [[Hno _] | [_ [Hnot _]]]; [now apply Hno in Hkey|].
    now apply Hnot in Hl.
  - destruct H as [l' [Hl' [Hin | [Hin | Hin]]]]; [| tauto | tauto].
    rewrite Hl in Hl'. injection Hl' as <-.
    rewrite Forall_forall in Hnull. now apply Hnull in Hin.
  - simpl. rewrite Hup.
    destruct (relay_failure (Upstream.stream q) response Hok) as [H1 H2].
    split.
    + intros H. now rewrite (H1 H).
    + intros H. destruct (H2 H) as [message [-> Ht]]. now exists message.
Qed.

Lemma upstream_failure_status_relayed_witness :
  let response :=
    {| Upstream.ok := false; Upstream.status := 429;
       Upstream.json := None; Upstream.reader := None |} in
  let body :=
    {| Chat.messages := Some (JArr [message "user" "hi"]);
       Chat.temperature := None; Chat.maxTokens := None;
       Chat.stream := Some (JBool false) |} in
  (Upstream.json response = Some JNull ->
   snd (run (fun _ => Some response) (Chat.chat (Some "sk-test") body)) =
     Some (Chat.ErrorJson 500 (JStr "Internal server error"))) /\
  (Upstream.json response <> Some JNull ->
   exists message,
     snd (run (fun _ => Some response) (Chat.chat (Some "sk-test") body)) =
       Some (Chat.ErrorJson (Upstream.status response) message) /\
     truthy message = true).
Proof.
  apply (upstream_failure_status_relayed _ _ _ [message "user" "hi"]).
  - exists "sk-test". split; [reflexivity | discriminate].
  - reflexivity.
  - repeat constructor; discriminate.
  - intros [v [H _]]. discriminate.
  - intros [v [H _]]. discriminate.
  - reflexivity.
  - reflexivity.
Defined.

(* ===================================================================== *)
(** * Further properties of the program generator *)
(* ===================================================================== *)

Lemma all_distinct_NoDup (l : list string) :
  all_distinct l = true -> NoDup l.
Proof.
  induction l as [| x l IH]; simpl; [constructor|].
  intros H. apply andb_true_iff in H. destruct H as [Hx Hl].
  constructor; [| now apply IH].
  intros Hin. apply negb_true_iff in Hx.
  assert (Hex : existsb (String.eqb x) l = true)
    by (apply existsb_exists; exists x; split;
        [assumption | apply String.eqb_refl]).
  congruence.
Qed.

(** The program, as the workouts of the thirty days under the three
    flags. *)
Lemma workouts_flags (o : Program.Onboarding) :
  exists e d b,
    Program.workouts o =
      map (workout_of_day o e d b (Program.timeAvailability o))
        Program.loop_days.
Proof. do 3 eexists. apply workouts_map. Qed.

(** X12: the program follows the weekly template whatever the equipment: days
    1 and 4 of a week are Upper Body, 2 and 5 Lower Body, 3 and 6 Full
    Body Circuit and the seventh Active Recovery, which makes 9 Upper
    Body, 9 Lower Body, 8 Full Body Circuit and 4 Active Recovery
    workouts in the thirty days. *)
Theorem program_weekly_template (o : Program.Onboarding) :
  map Workout.type (Program.workouts o) = map template Program.loop_days /\
  count_type "Upper Body" (Program.workouts o) = 9%nat /\
  count_type "Lower Body" (Program.workouts o) = 9%nat /\
  count_type "Full Body Circuit" (Program.workouts o) = 8%nat /\
  count_type "Active Recovery" (Program.workouts o) = 4%nat.
Proof.
  destruct (workouts_flags o) as [e [d [b ->]]].
  repeat split; reflexivity.
Qed.

(** X13: the workout ids are workout-1, ..., workout-30, pairwise distinct;
    the exercise ids are pairwise distinct within every workout, but not
    across workouts: every Upper Body, Lower Body and Full Body Circuit
    workout numbers its exercises ex-1 to ex-5.  No workout is marked
    completed. *)
Theorem program_ids (o : Program.Onboarding) :
  map Workout.id (Program.workouts o) =
    map (fun day => "workout-" ++ Number_toString day)%string
      Program.loop_days /\
  NoDup (map Workout.id (Program.workouts o)) /\
  Forall (fun w => NoDup (map Exercise.id (Workout.exercises w)))
    (Program.workouts o) /\
  Forall (fun w => Z.rem (Workout.day w) 7 <> 0 ->
            map Exercise.id (Workout.exercises w) =
              ["ex-1"; "ex-2"; "ex-3"; "ex-4"; "ex-5"])
    (Program.workouts o) /\
  Forall (fun w => Workout.completed w = false) (Program.workouts o).
Proof.
  destruct (workouts_flags o) as [e [d [b ->]]].
  split; [reflexivity|].
  split; [apply all_distinct_NoDup; reflexivity|].
  split; [| split].
  - destruct e, d, b;
      repeat (constructor; [apply all_distinct_NoDup; reflexivity|]);
      constructor.
  - destruct e, d, b;
      repeat (constructor;
              [ simpl Z.rem; intros H;
                first [reflexivity | now contradiction H] |]);
      constructor.
  - repeat (constructor; [reflexivity|]). constructor.
Qed.

Lemma sets_bounds (week : Z) :
  0 <= week -> 3 <= Math.min (3 + Math.floor_div week 2) 5 <= 5.
Proof.
  intros H. unfold Math.min, Math.floor_div.
  assert (0 <= week / 2) by (apply Z.div_pos; lia). lia.
Qed.

Lemma ceil_div_bounds (day : Z) : 1 <= day -> 1 <= Math.ceil_div day 7.
Proof.
  intros H. unfold Math.ceil_div.
  assert (- day / 7 < 0); [| lia].
  apply Z.div_lt_upper_bound; lia.
Qed.

Lemma ceil_div_monotone (day day' : Z) :
  day <= day' -> Math.ceil_div day 7 <= Math.ceil_div day' 7.
Proof.
  intros H. unfold Math.ceil_div.
  assert (- day' / 7 <= - day / 7) by (apply Z.div_le_mono; lia). lia.
Qed.

(** A day of the program has a remainder 0..6 modulo 7. *)
Lemma day_of_week (day : Z) : 1 <= day -> 0 <= Z.rem day 7 <= 6.
Proof.
  intros H. pose proof (Z.rem_bound_pos day 7 ltac:(lia) ltac:(lia)). lia.
Qed.

(** The workout of a day of the program, by cases on the day of the
    week: the rest-day workout, or the workout of one of the three exercise
    selectors. *)
Lemma program_day_cases (o : Program.Onboarding) (day : Z) :
  1 <= day <= 30 ->
  exists e d b week,
    1 <= week /\ week = Math.ceil_div day 7 /\
    e = (0 <? Z.of_nat (length (Program.equipment o))) /\
    d = Program.includes (Program.equipment o) "Dumbbells" /\
    b = Program.includes (Program.equipment o) "Barbell" /\
    ((Z.rem day 7 = 0 /\ program_day o day = Program.restDayWorkout day) \/
     (Z.rem day 7 <> 0 /\
      exists type exercises,
        program_day o day =
          Workout.mk ("workout-" ++ Number_toString day) day type
            (Program.timeAvailability o) exercises false /\
        ((type = "Upper Body" /\
          exercises = Program.getUpperBodyExercises e d b week) \/
         (type = "Lower Body" /\
          exercises = Program.getLowerBodyExercises e d b week) \/
         (type = "Full Body Circuit" /\
          exercises = Program.getFullBodyExercises e week)))).
Proof.
  intros Hday.
  do 3 eexists. exists (Math.ceil_div day 7).
  split; [apply ceil_div_bounds; lia|].
  do 4 (split; [reflexivity|]).
  unfold program_day, workout_of_day.
  pose proof (day_of_week day ltac:(lia)) as Hrem.
  destruct (Z.eqb_spec (Z.rem day 7) 0) as [H0 | H0];
    [left; now split | right; split; [assumption|]].
  unfold Program.generateWorkoutForDay.
  destruct (Z.eqb_spec (Z.rem day 7) 1);
    [do 2 eexists; split; [reflexivity | now left] |].
  destruct (Z.eqb_spec (Z.rem day 7) 4);
    [do 2 eexists; split; [reflexivity | now left] |].
  destruct (Z.eqb_spec (Z.rem day 7) 2);
    [do 2 eexists; split; [reflexivity | right; now left] |].
  destruct (Z.eqb_spec (Z.rem day 7) 5);
    [do 2 eexists; split; [reflexivity | right; now left] |].
  destruct (Z.eqb_spec (Z.rem day 7) 3);
    [do 2 eexists; split; [reflexivity | right; now right] |].
  destruct (Z.eqb_spec (Z.rem day 7) 6);
    [do 2 eexists; split; [reflexivity | right; now right] |].
  lia.
Qed.

Lemma workout_cases (o : Program.Onboarding) (w : Workout.t) :
  In w (Program.workouts o) ->
  exists e d b week,
    1 <= Workout.day w <= 30 /\
    1 <= week /\ week = Math.ceil_div (Workout.day w) 7 /\
    e = (0 <? Z.of_nat (length (Program.equipment o))) /\
    d = Program.includes (Program.equipment o) "Dumbbells" /\
    b = Program.includes (Program.equipment o) "Barbell" /\
    ((Z.rem (Workout.day w) 7 = 0 /\
      w = Program.restDayWorkout (Workout.day w)) \/
     (Z.rem (Workout.day w) 7 <> 0 /\
      exists type exercises,
        w = Workout.mk ("workout-" ++ Number_toString (Workout.day w))
              (Workout.day w) type (Program.timeAvailability o) exercises
              false /\
        ((type = "Upper Body" /\
          exercises = Program.getUpperBodyExercises e d b week) \/
         (type = "Lower Body" /\
          exercises = Program.getLowerBodyExercises e d b week) \/
         (type = "Full Body Circuit" /\
          exercises = Program.getFullBodyExercises e week)))).
Proof.
  intros Hin. apply in_workouts_day in Hin. destruct Hin as [Hw Hday].
  destruct (program_day_cases o (Workout.day w) Hday)
    as [e [d [b [week [H1 [H2 [H3 [H4 [H5 H6]]]]]]]]].
  rewrite <- Hw in H6. exists e, d, b, week. tauto.
Qed.

Lemma upper_shape (e d b : bool) (week : Z) :
  1 <= week ->
  length (Program.getUpperBodyExercises e d b week) = 5%nat /\
  Forall exercise_in_bounds (Program.getUpperBodyExercises e d b week).
Proof.
  intros H. pose proof (sets_bounds week ltac:(lia)) as Hs.
  unfold Program.getUpperBodyExercises.
  destruct b, d; (split; [reflexivity|]);
    repeat (apply Forall_cons;
            [cbv [exercise_in_bounds Program.ex Exercise.sets Exercise.rest];
             lia|]);
    apply Forall_nil.
Qed.

Lemma lower_shape (e d b : bool) (week : Z) :
  1 <= week ->
  length (Program.getLowerBodyExercises e d b week) = 5%nat /\
  Forall exercise_in_bounds (Program.getLowerBodyExercises e d b week).
Proof.
  intros H. pose proof (sets_bounds week ltac:(lia)) as Hs.
  unfold Program.getLowerBodyExercises.
  destruct b, d; (split; [reflexivity|]);
    repeat (apply Forall_cons;
            [cbv [exercise_in_bounds Program.ex Exercise.sets Exercise.rest];
             lia|]);
    apply Forall_nil.
Qed.

Lemma circuit_shape (e : bool) (week : Z) :
  length (Program.getFullBodyExercises e week) = 5%nat /\
  Forall exercise_in_bounds (Program.getFullBodyExercises e week).
Proof.
  unfold Program.getFullBodyExercises.
  destruct e; (split; [reflexivity|]);
    repeat (apply Forall_cons;
            [cbv [exercise_in_bounds Program.ex Exercise.sets Exercise.rest];
             lia|]);
    apply Forall_nil.
Qed.

(** X14: every training day of a program (a day that is not a multiple of 7)
    lasts the time the user has, and has exactly five exercises, each with
    3 to 5 sets and 30 to 120 seconds of rest. *)
Theorem training_day_shape (o : Program.Onboarding) (w : Workout.t) :
  In w (Program.workouts o) ->
  Z.rem (Workout.day w) 7 <> 0 ->
  Workout.duration w = Program.timeAvailability o /\
  length (Workout.exercises w) = 5%nat /\
  Forall exercise_in_bounds (Workout.exercises w).
Proof.
  intros Hin Hrest.
  destruct (workout_cases o w Hin)
    as (e & d & b & week & _ & Hweek & _ & _ & _ & _ & [[H0 _] | [_ H]]);
    [contradiction|].
  set (day := Workout.day w) in *. clearbody day.
  destruct H as [type [exercises [-> H]]]. simpl.
  split; [reflexivity|].
  destruct H as [[_ ->] | [[_ ->] | [_ ->]]].
  - now apply upper_shape.
  - now apply lower_shape.
  - apply circuit_shape.
Qed.

Lemma program_day_In (o : Program.Onboarding) (day : Z) :
  1 <= day <= 30 -> In (program_day o day) (Program.workouts o).
Proof.
  intros H. rewrite workouts_map. apply in_map. now apply loop_days_range.
Qed.

Lemma training_day_shape_witness :
  Workout.duration (program_day barbell_and_dumbbells 8) = 45 /\
  length (Workout.exercises (program_day barbell_and_dumbbells 8)) = 5%nat /\
  Forall exercise_in_bounds
    (Workout.exercises (program_day barbell_and_dumbbells 8)).
Proof.
  apply (training_day_shape barbell_and_dumbbells
           (program_day barbell_and_dumbbells 8)).
  - apply program_day_In. lia.
  - rewrite program_day_day. discriminate.
Defined.

(** X15: the Active Recovery workouts of a program are the rest days of the
    handler, a 15-minute "Light Walk or Stretch"; the 20-minute "Light
    Activity" workout that [generateWorkoutForDay] has for a day of the
    week it does not know is never part of a program. *)
Theorem recovery_is_the_rest_day (o : Program.Onboarding) (w : Workout.t) :
  In w (Program.workouts o) ->
  (Workout.type w = "Active Recovery" <-> Z.rem (Workout.day w) 7 = 0) /\
  (Workout.type w = "Active Recovery" ->
   Workout.duration w = 15 /\
   map Exercise.name (Workout.exercises w) = ["Light Walk or Stretch"]) /\
  Forall (fun x => Exercise.name x <> "Light Activity")
    (Workout.exercises w).
Proof.
  intros Hin.
  destruct (workout_cases o w Hin)
    as (e & d & b & week & _ & _ & _ & _ & _ & _ & [[H0 Hw] | [H0 H]]).
  - set (day := Workout.day w) in *. clearbody day. subst w. simpl.
    split; [split; [intros _; assumption | reflexivity]|].
    split; [intros _; split; reflexivity|].
    repeat constructor. discriminate.
  - set (day := Workout.day w) in *. clearbody day.
    destruct H as [type [exercises [-> H]]]. simpl.
    assert (Htype : type <> "Active Recovery")
      by (destruct H as [[-> _] | [[-> _] | [-> _]]]; discriminate).
    split; [split; [intros; contradiction | intros; contradiction]|].
    split; [intros; contradiction|].
    destruct H as [[_ ->] | [[_ ->] | [_ ->]]].
    + unfold Program.getUpperBodyExercises.
      destruct b, d; repeat constructor; discriminate.
    + unfold Program.getLowerBodyExercises.
      destruct b, d; repeat constructor; discriminate.
    + unfold Program.getFullBodyExercises.
      destruct e; repeat constructor; discriminate.
Qed.

Lemma recovery_is_the_rest_day_witness :
  (Workout.type (program_day bands_only 14) = "Active Recovery" <->
   Z.rem (Workout.day (program_day bands_only 14)) 7 = 0) /\
  (Workout.type (program_day bands_only 14) = "Active Recovery" ->
   Workout.duration (program_day bands_only 14) = 15 /\
   map Exercise.name (Workout.exercises (program_day bands_only 14)) =
     ["Light Walk or Stretch"]) /\
  Forall (fun x => Exercise.name x <> "Light Activity")
    (Workout.exercises (program_day bands_only 14)).
Proof.
  apply (recovery_is_the_rest_day bands_only (program_day bands_only 14)).
  apply program_day_In. lia.
Defined.

Lemma includes_not_In (l : list string) (s : string) :
  ~ In s l -> Program.includes l s = false.
Proof.
  intros H. unfold Program.includes.
  destruct (existsb (String.eqb s) l) eqn:Hex; [| reflexivity].
  apply existsb_exists in Hex. destruct Hex as [x [Hx Heq]].
  apply String.eqb_eq in Heq. subst x. contradiction.
Qed.

(** X16: with dumbbells and no barbell, the Upper Body and Lower Body workouts
    of a program use the dumbbell lists, and the Full Body Circuit the
    circuit with equipment. *)
Theorem dumbbell_tier (o : Program.Onboarding) (w : Workout.t) :
  In "Dumbbells" (Program.equipment o) ->
  ~ In "Barbell" (Program.equipment o) ->
  In w (Program.workouts o) ->
  (Workout.type w = "Upper Body" ->
   map Exercise.name (Workout.exercises w) = dumbbell_upper_names) /\
  (Workout.type w = "Lower Body" ->
   map Exercise.name (Workout.exercises w) = dumbbell_lower_names) /\
  (Workout.type w = "Full Body Circuit" ->
   map Exercise.name (Workout.exercises w) = equipment_circuit_names).
Proof.
  intros Hd Hb Hin.
  destruct (workout_cases o w Hin)
    as (e & d & b & week & _ & _ & _ & He & Hd' & Hb' & [[_ Hw] | [_ H]]).
  - rewrite Hw. simpl. repeat split; discriminate.
  - rewrite (includes_In _ _ Hd) in Hd'.
    rewrite (includes_not_In _ _ Hb) in Hb'.
    assert (Hany : (0 <? Z.of_nat (length (Program.equipment o))) = true)
      by (destruct (Program.equipment o); [contradiction | reflexivity]).
    rewrite Hany in He. subst e d b. set (day := Workout.day w) in *. clearbody day.
    destruct H as [type [exercises [-> H]]]. simpl.
    destruct H as [[-> ->] | [[-> ->] | [-> ->]]];
      repeat split; intros; try discriminate; reflexivity.
Qed.

Lemma dumbbell_tier_witness :
  (Workout.type (program_day dumbbells_only 2) = "Upper Body" ->
   map Exercise.name (Workout.exercises (program_day dumbbells_only 2)) =
     dumbbell_upper_names) /\
  (Workout.type (program_day dumbbells_only 2) = "Lower Body" ->
   map Exercise.name (Workout.exercises (program_day dumbbells_only 2)) =
     dumbbell_lower_names) /\
  (Workout.type (program_day dumbbells_only 2) = "Full Body Circuit" ->
   map Exercise.name (Workout.exercises (program_day dumbbells_only 2)) =
     equipment_circuit_names).
Proof.
  apply (dumbbell_tier dumbbells_only (program_day dumbbells_only 2)).
  - left. reflexivity.
  - intros [H | []]. discriminate.
  - apply program_day_In. lia.
Defined.

(** X17: with equipment that is neither a barbell nor dumbbells, the Upper
    Body and Lower Body workouts of a program are the bodyweight ones, and
    yet the Full Body Circuit is the one with dumbbell exercises: the
    circuit asks only whether there is any equipment. *)
Theorem circuit_ignores_equipment_kind (o : Program.Onboarding)
  (w : Workout.t) :
  Program.equipment o <> [] ->
  ~ In "Dumbbells" (Program.equipment o) ->
  ~ In "Barbell" (Program.equipment o) ->
  In w (Program.workouts o) ->
  (Workout.type w = "Upper Body" ->
   map Exercise.name (Workout.exercises w) = bodyweight_upper_names) /\
  (Workout.type w = "Lower Body" ->
   map Exercise.name (Workout.exercises w) = bodyweight_lower_names) /\
  (Workout.type w = "Full Body Circuit" ->
   map Exercise.name (Workout.exercises w) = equipment_circuit_names).
Proof.
  intros He Hd Hb Hin.
  destruct (workout_cases o w Hin)
    as (e & d & b & week & _ & _ & _ & He' & Hd' & Hb' & [[_ Hw] | [_ H]]).
  - rewrite Hw. simpl. repeat split; discriminate.
  - rewrite (includes_not_In _ _ Hd) in Hd'.
    rewrite (includes_not_In _ _ Hb) in Hb'.
    assert (Hany : (0 <? Z.of_nat (length (Program.equipment o))) = true)
      by (destruct (Program.equipment o); [contradiction | reflexivity]).
    rewrite Hany in He'. subst e d b. set (day := Workout.day w) in *. clearbody day.
    destruct H as [type [exercises [-> H]]]. simpl.
    destruct H as [[-> ->] | [[-> ->] | [-> ->]]];
      repeat split; intros; try discriminate; reflexivity.
Qed.

Lemma circuit_ignores_equipment_kind_witness :
  (Workout.type (program_day bands_only 3) = "Upper Body" ->
   map Exercise.name (Workout.exercises (program_day bands_only 3)) =
     bodyweight_upper_names) /\
  (Workout.type (program_day bands_only 3) = "Lower Body" ->
   map Exercise.name (Workout.exercises (program_day bands_only 3)) =
     bodyweight_lower_names) /\
  (Workout.type (program_day bands_only 3) = "Full Body Circuit" ->
   map Exercise.name (Workout.exercises (program_day bands_only 3)) =
     equipment_circuit_names).
Proof.
  apply (circuit_ignores_equipment_kind bands_only
           (program_day bands_only 3)).
  - discriminate.
  - intros [H | []]. discriminate.
  - intros [H | []]. discriminate.
  - apply program_day_In. lia.
Defined.

(** X18: without any equipment every workout of a program is a bodyweight one,
    the Full Body Circuit included. *)
Theorem no_equipment_is_bodyweight (t : Z) (w : Workout.t) :
  In w (Program.workouts (onboarding_with [] t)) ->
  (Workout.type w = "Upper Body" ->
   map Exercise.name (Workout.exercises w) = bodyweight_upper_names) /\
  (Workout.type w = "Lower Body" ->
   map Exercise.name (Workout.exercises w) = bodyweight_lower_names) /\
  (Workout.type w = "Full Body Circuit" ->
   map Exercise.name (Workout.exercises w) = bodyweight_circuit_names).
Proof.
  intros Hin.
  destruct (workout_cases _ w Hin)
    as (e & d & b & week & _ & _ & _ & He' & Hd' & Hb' & [[_ Hw] | [_ H]]).
  - rewrite Hw. simpl. repeat split; discriminate.
  - simpl in He', Hd', Hb'. subst e d b.
    set (day := Workout.day w) in *. clearbody day.
    destruct H as [type [exercises [-> H]]]. simpl.
    destruct H as [[-> ->] | [[-> ->] | [-> ->]]];
      repeat split; intros; try discriminate; reflexivity.
Qed.

Lemma no_equipment_is_bodyweight_witness :
  (Workout.type (program_day (onboarding_with [] 20) 6) = "Upper Body" ->
   map Exercise.name
     (Workout.exercises (program_day (onboarding_with [] 20) 6)) =
     bodyweight_upper_names) /\
  (Workout.type (program_day (onboarding_with [] 20) 6) = "Lower Body" ->
   map Exercise.name
     (Workout.exercises (program_day (onboarding_with [] 20) 6)) =
     bodyweight_lower_names) /\
  (Workout.type (program_day (onboarding_with [] 20) 6) =
     "Full Body Circuit" ->
   map Exercise.name
     (Workout.exercises (program_day (onboarding_with [] 20) 6)) =
     bodyweight_circuit_names).
Proof.
  apply (no_equipment_is_bodyweight 20
           (program_day (onboarding_with [] 20) 6)).
  apply program_day_In. lia.
Defined.

Lemma sets_monotone (week week' : Z) :
  week <= week' ->
  Math.min (3 + Math.floor_div week 2) 5 <=
    Math.min (3 + Math.floor_div week' 2) 5.
Proof.
  intros H. unfold Math.min, Math.floor_div.
  assert (week / 2 <= week' / 2) by (apply Z.div_le_mono; lia). lia.
Qed.

Ltac progress_list :=
  repeat (apply Forall2_cons;
          [cbv [progresses Program.ex Exercise.name Exercise.reps
                  Exercise.rest Exercise.sets];
           repeat split; (assumption || lia)|]);
  apply Forall2_nil.

(** X19: progressive overload: of two workouts of the same type in a program,
    the later one has the same exercises, with the same repetitions and
    rest, and at least as many sets of each. *)
Theorem overload_never_decreases (o : Program.Onboarding)
  (w w' : Workout.t) :
  In w (Program.workouts o) ->
  In w' (Program.workouts o) ->
  Workout.type w = Workout.type w' ->
  Workout.day w <= Workout.day w' ->
  Forall2 progresses (Workout.exercises w) (Workout.exercises w').
Proof.
  intros Hin Hin' Htype Hday.
  destruct (workout_cases o w Hin)
    as (e & d & b & week & _ & _ & Hweek & He & Hd & Hb & H).
  destruct (workout_cases o w' Hin')
    as (e' & d' & b' & week' & _ & _ & Hweek' & He' & Hd' & Hb' & H').
  assert (Hle : week <= week')
    by (rewrite Hweek, Hweek'; now apply ceil_div_monotone).
  pose proof (sets_monotone week week' Hle) as Hsets.
  rewrite <- He in He'. rewrite <- Hd in Hd'. rewrite <- Hb in Hb'.
  subst e' d' b'. clear Hweek Hweek' He Hd Hb Hday Hin Hin'.
  set (day := Workout.day w) in *. clearbody day.
  set (day' := Workout.day w') in *. clearbody day'.
  destruct H as [[_ ->] | [_ [type [exercises [-> H]]]]];
    destruct H' as [[_ ->] | [_ [type' [exercises' [-> H']]]]];
    simpl in Htype |- *.
  - progress_list.
  - destruct H' as [[-> _] | [[-> _] | [-> _]]]; discriminate.
  - destruct H as [[-> _] | [[-> _] | [-> _]]]; discriminate.
  - subst type'.
    destruct H as [[-> ->] | [[-> ->] | [-> ->]]];
      destruct H' as [[Ht ->] | [[Ht ->] | [Ht ->]]];
      try discriminate.
    + unfold Program.getUpperBodyExercises. destruct b, d; progress_list.
    + unfold Program.getLowerBodyExercises. destruct b, d; progress_list.
    + unfold Program.getFullBodyExercises. destruct e; progress_list.
Qed.

Lemma overload_never_decreases_witness :
  Forall2 progresses
    (Workout.exercises (program_day barbell_and_dumbbells 1))
    (Workout.exercises (program_day barbell_and_dumbbells 22)).
Proof.
  apply (overload_never_decreases barbell_and_dumbbells
           (program_day barbell_and_dumbbells 1)
           (program_day barbell_and_dumbbells 22)).
  - apply program_day_In. lia.
  - apply program_day_In. lia.
  - reflexivity.
  - rewrite !program_day_day. lia.
Defined.

(* ===================================================================== *)
(** * Further properties of the persona synthesizer and the calculator *)
(* ===================================================================== *)

Lemma slice_last_app {A : Type} (n : nat) (older recent : list A) :
  (n <= length recent)%nat ->
  Array.slice_last n (older ++ recent)%list = Array.slice_last n recent.
Proof.
  intros H. unfold Array.slice_last.
  rewrite length_app, skipn_app.
  replace (skipn (length older + length recent - n) older) with (@nil A)
    by (symmetry; apply skipn_all2; lia).
  simpl. f_equal. lia.
Qed.

(** X20: only the five most recent journal entries reach the prompt: entries
    before them change nothing in it. *)
Theorem journal_last_five
  (StringToNumber : string -> float) (ToPrimitive : JSON -> string)
  (o : Persona.OnboardingData) (progressData : option Persona.ProgressData)
  (older recent : list Persona.JournalEntry) :
  (5 <= length recent)%nat ->
  Persona.systemPrompt StringToNumber ToPrimitive o progressData
    (Some (older ++ recent)%list) =
  Persona.systemPrompt StringToNumber ToPrimitive o progressData
    (Some recent).
Proof.
  intros H.
  assert (Hctx : Persona.journalContext (Some (older ++ recent)%list) =
                 Persona.journalContext (Some recent)).
  { unfold Persona.journalContext.
    rewrite (slice_last_app 5 older recent H).
    replace (0 <? Z.of_nat (length (older ++ recent)%list)) with true
      by (symmetry; apply Z.ltb_lt; rewrite length_app; lia).
    replace (0 <? Z.of_nat (length recent)) with true
      by (symmetry; apply Z.ltb_lt; lia).
    reflexivity. }
  unfold Persona.systemPrompt. now rewrite Hctx.
Qed.

Lemma journal_last_five_witness :
  Persona.systemPrompt unused_StringToNumber unused_ToPrimitive
    (with_coachingStyle None) None
    (Some ([Persona.Text "long ago"]
           ++ map Persona.Text ["a"; "b"; "c"; "d"; "e"])%list) =
  Persona.systemPrompt unused_StringToNumber unused_ToPrimitive
    (with_coachingStyle None) None
    (Some (map Persona.Text ["a"; "b"; "c"; "d"; "e"])).
Proof.
  apply (journal_last_five unused_StringToNumber unused_ToPrimitive
           (with_coachingStyle None) None [Persona.Text "long ago"]).
  simpl. lia.
Defined.



(** X22: the calculator has no error for an unknown fitness level or goal: a
    fitness level other than beginner and intermediate is treated as
    advanced, and a goal other than shred and build as reset. *)
Theorem unknown_level_and_goal (o : Nutrition.Onboarding) :
  (Nutrition.fitnessLevel o <> "beginner" ->
   Nutrition.fitnessLevel o <> "intermediate" ->
   Nutrition.calculate_nutrition (Some o) =
     Nutrition.calculate_nutrition (Some (with_level "advanced" o))) /\
  (Nutrition.goal o <> "shred" ->
   Nutrition.goal o <> "build" ->
   Nutrition.calculate_nutrition (Some o) =
     Nutrition.calculate_nutrition (Some (with_goal "reset" o))).
Proof.
  split.
  - intros H1 H2. apply String.eqb_neq in H1, H2.
    unfold Nutrition.calculate_nutrition, Nutrition.carbGrams,
      Nutrition.carbCalories, Nutrition.fatGrams, Nutrition.fatCalories,
      Nutrition.proteinCalories, Nutrition.proteinGrams,
      Nutrition.proteinPerLb, Nutrition.targetCalories,
      Nutrition.goalBranch, Nutrition.maintenanceCalories,
      Nutrition.activityMultiplier, Nutrition.bmr.
    simpl. now rewrite H1, H2.
  - intros H1 H2. apply String.eqb_neq in H1, H2.
    unfold Nutrition.calculate_nutrition, Nutrition.carbGrams,
      Nutrition.carbCalories, Nutrition.fatGrams, Nutrition.fatCalories,
      Nutrition.proteinCalories, Nutrition.proteinGrams,
      Nutrition.proteinPerLb, Nutrition.targetCalories,
      Nutrition.goalBranch, Nutrition.maintenanceCalories,
      Nutrition.activityMultiplier, Nutrition.bmr.
    simpl. now rewrite H1, H2.
Qed.

Lemma unknown_level_and_goal_witness :
  Nutrition.calculate_nutrition (Some (with_level "athlete" scenario)) =
    Nutrition.calculate_nutrition (Some (with_level "advanced" scenario)) /\
  Nutrition.calculate_nutrition (Some (with_goal "Shred" scenario)) =
    Nutrition.calculate_nutrition (Some (with_goal "reset" scenario)).
Proof.
  split.
  - apply (proj1 (unknown_level_and_goal (with_level "athlete" scenario)));
      discriminate.
  - apply (proj2 (unknown_level_and_goal (with_goal "Shred" scenario)));
      discriminate.
Defined.
